(** * recognizeEq.c: a recursive-descent recognizer for polynomial equations

    A shallow embedding of the recognizer of [recognizeEq.c] (the second,
    current version of the file: [valueNumber], [acceptExponent],
    [acceptTerm], [acceptExpression], [acceptEquation],
    [determineVariables] and the loop of [recognizeEquations]), followed by
    the properties of it that the specification states.

    Conventions of the embedding.
    - A [List] (pointer to a [ListNode], [NULL] at the end) is a Rocq list
      of tokens; [NULL] is [[]].
    - The functions take the cursor by reference ([List *lp]) and share the
      global [int biggestExponent]; both live in [State] and every matcher
      is a state transformer returning its C result.
    - A matcher's result is the C [int] it returns, which is only ever 0 or
      1 and only ever tested for truth: [true] is 1 (accepted), [false] is
      0 (rejected).  [determineVariables] returns 0, 1 or 2 and keeps [Z]. *)

From Stdlib Require Import ZArith QArith List String Ascii Bool Lia.
Import ListNotations.

Local Open Scope Z_scope.

(** ** Tokens (scanner.h) *)

(** Modelled from the spec: the declarations of [scanner.h] ([TokenType],
    the union [Token], [ListNode]) are not part of the sources.  The spec
    gives three token kinds, Number carrying a numeric value (integer or
    real), Identifier carrying a name and Symbol carrying one character.
    [valueNumber] reads the numeric payload into a [double]; a finite
    double is a rational, and the recognizer only compares it with an [int]
    and converts it to [int], both determined by its value, so the payload
    is a [Q].  The tag [tt] and the union member it selects are one constructor. *)
Inductive Token : Type :=
| Number (number : Q)
| Identifier (identifier : string)
| Symbol (symbol : ascii).

(** ** State and the monad of matchers *)

Record State : Type := mkState {
  lp : list Token;          (* the cursor [*lp] *)
  biggestExponent : Z       (* the global [int biggestExponent] *)
}.

Definition M (A : Type) : Type := State -> A * State.

Definition ret {A} (a : A) : M A := fun st => (a, st).

Definition bind {A B} (m : M A) (f : A -> M B) : M B :=
  fun st => let (a, st1) := m st in f a st1.

Notation "x <- m ;; k" := (bind m (fun x => k))
  (at level 61, m at next level, right associativity).

(** [*lp = next] *)
Definition advance (next : list Token) : M unit :=
  fun st => (tt, mkState next (biggestExponent st)).

(** C's [a && b] and [a || b] on matcher calls: the right operand runs only
    when the left one does not decide the result. *)
Definition andThen (a b : M bool) : M bool :=
  x <- a ;; if x then b else ret false.

Definition orElse (a b : M bool) : M bool :=
  x <- a ;; if x then ret true else b.

(** ** The primitive matchers *)

Definition acceptNumber : M bool := fun st =>
  match lp st with
  | Number _ :: next => (_ <- advance next ;; ret true) st
  | _ => (false, st)
  end.

Definition acceptIdentifier : M bool := fun st =>
  match lp st with
  | Identifier _ :: next => (_ <- advance next ;; ret true) st
  | _ => (false, st)
  end.

Definition acceptCharacter (c : ascii) : M bool := fun st =>
  match lp st with
  | Symbol s :: next =>
      if Ascii.eqb s c then (_ <- advance next ;; ret true) st else (false, st)
  | _ => (false, st)
  end.

(** ** The exponent *)

(** [*wp > biggestExponent]: the [int] is converted to [double] and the
    doubles are compared. *)
Definition double_gt_int (w : Q) (b : Z) : bool := negb (Qle_bool w (inject_Z b)).

Definition INT_MIN : Z := - 2 ^ 31.
Definition INT_MAX : Z := 2 ^ 31 - 1.

(** The integral part of a value: the fractional part is discarded
    (truncation toward zero). *)
Definition truncate (w : Q) : Z := Z.quot (Qnum w) (Z.pos (Qden w)).

(** [biggestExponent = *wp]: conversion of a [double] to the 32-bit [int].
    When the integral part fits an [int] the result is that integral part.
    When it does not, C leaves the conversion undefined; the conversion
    instruction of x86-64 ([cvttsd2si]), through which the assignment runs,
    then delivers [INT_MIN], and that is the value taken here.  So the
    accumulator only ever receives values of the [int] range. *)
Definition double_to_int (w : Q) : Z :=
  let t := truncate w in
  if (INT_MIN <=? t) && (t <=? INT_MAX) then t else INT_MIN.

Arguments double_to_int : simpl never.

(** [valueNumber (lp, wp)]: the value left in [*wp] is returned with the
    result. *)
Definition valueNumber (wp : Q) : M (bool * Q) := fun st =>
  match lp st with
  | Number number :: next =>
      let wp := number in
      let b := biggestExponent st in
      (true, wp, mkState next (if double_gt_int wp b then double_to_int wp else b))
  | _ => (false, wp, st)
  end.

Definition acceptExponent : M bool :=
  let wp := 0%Q in
  c <- acceptCharacter "^" ;;
  if c then
    m <- acceptCharacter "-" ;;
    if m then ret false
    else r <- valueNumber wp ;; ret (fst r)
  else ret true.

(** ** Terms, expressions, equations *)

Definition acceptTerm : M bool :=
  n <- acceptNumber ;;
  if n then
    i <- acceptIdentifier ;;
    if i then acceptExponent else ret true
  else
    i <- acceptIdentifier ;;
    if i then acceptExponent else ret false.

(** The [while] loop of [acceptExpression].  Every iteration that continues
    has consumed a ['+'] or a ['-'], so the number of tokens under the
    cursor bounds the number of iterations; [fuel] counts them, and [None]
    is the loop still running when the fuel is spent. *)
Fixpoint acceptExpression_loop (fuel : nat) : M (option bool) :=
  match fuel with
  | O => ret None
  | S fuel' =>
      c <- orElse (acceptCharacter "+") (acceptCharacter "-") ;;
      if c then
        t <- acceptTerm ;;
        if negb t then ret (Some false) else acceptExpression_loop fuel'
      else ret (Some true)
  end.

(** The loop run from the cursor it is entered with: the fuel is more than
    the tokens left, which [acceptExpression_loop_total] shows is enough. *)
Definition acceptExpression_while : M bool := fun st =>
  let (r, st') := acceptExpression_loop (S (List.length (lp st))) st in
  (match r with Some b => b | None => false end, st').

Definition acceptExpression : M bool :=
  m <- acceptCharacter "-" ;;
  if m then
    t <- acceptTerm ;; if negb t then ret false else acceptExpression_while
  else
    t <- acceptTerm ;; if negb t then ret false else acceptExpression_while.

Definition acceptEquation : M bool :=
  andThen (andThen acceptExpression (acceptCharacter "=")) acceptExpression.

(** ** Counting the variables *)

(** [strcmp]: zero exactly when the two strings are equal, otherwise the
    sign of the first difference. *)
Definition strcmp (s t : string) : Z :=
  match String.compare s t with
  | Eq => 0
  | Lt => -1
  | Gt => 1
  end.

(** The loop of [determineVariables]; [str] is the local [char *string],
    [None] for [NULL]. *)
Fixpoint determineVariables_loop (lp : list Token) (str : option string) : Z :=
  match lp with
  | [] => match str with None => 0 | Some _ => 1 end
  | Identifier identifier :: next =>
      let str1 := match str with None => identifier | Some s => s end in
      if negb (strcmp str1 identifier =? 0) then 2
      else determineVariables_loop next (Some str1)
  | _ :: next => determineVariables_loop next str
  end.

Definition determineVariables (lp : list Token) : Z :=
  determineVariables_loop lp None.

(** ** The driver *)

(** What [recognizeEquations] prints for a line, one message per [printf]
    that reports on the equation. *)
Inductive Message : Type :=
| InOneVariable            (* "this is an equation in 1 variable" *)
| OfDegree (d : Z)         (* " of degree 1", " of degree %d\n" *)
| NotInOneVariable         (* "this is an equation, but not in 1 variable\n" *)
| NotAnEquation.           (* "this is not an equation\n" *)

Definition isNull (l : list Token) : bool :=
  match l with [] => true | _ => false end.

(** The body of the [while] loop for one token list [tl]: the messages
    printed and the value [biggestExponent] has afterwards. *)
Definition recognizeEquation (tl : list Token) (b : Z) : list Message * Z :=
  let (r, st) := acceptEquation (mkState tl b) in
  if r && isNull (lp st) then
    if determineVariables tl =? 1 then
      ([InOneVariable;
        if biggestExponent st =? 0 then OfDegree 1
        else OfDegree (biggestExponent st)],
       0)
    else if negb (determineVariables tl =? 1) then
      ([NotInOneVariable], biggestExponent st)
    else ([], biggestExponent st)
  else ([NotAnEquation], biggestExponent st).

(** [recognizeEquations] on the token lists of the lines read before the
    line that starts with ['!'], from the value [b] of [biggestExponent]
    (0 when the program starts). *)
Fixpoint recognizeEquations (lines : list (list Token)) (b : Z)
  : list (list Message) * Z :=
  match lines with
  | [] => ([], b)
  | tl :: rest =>
      let (msgs, b1) := recognizeEquation tl b in
      let (out, b2) := recognizeEquations rest b1 in
      (msgs :: out, b2)
  end.

(** ** Test inputs: the token lists of the lines named in the spec *)

Definition num (z : Z) : Token := Number (inject_Z z).
Definition var (s : string) : Token := Identifier s.
Definition sym (c : ascii) : Token := Symbol c.

(* x^3+x=5 *)
Definition eq_cubic : list Token :=
  [var "x"; sym "^"; num 3; sym "+"; var "x"; sym "="; num 5].
(* x+5=0 *)
Definition eq_linear : list Token :=
  [var "x"; sym "+"; num 5; sym "="; num 0].
(* x+y=3 *)
Definition eq_two_vars : list Token :=
  [var "x"; sym "+"; var "y"; sym "="; num 3].
(* x^-2=0 *)
Definition eq_negative_exponent : list Token :=
  [var "x"; sym "^"; sym "-"; num 2; sym "="; num 0].
(* 3+4=7 *)
Definition eq_no_vars : list Token :=
  [num 3; sym "+"; num 4; sym "="; num 7].

(* x^3+y=5 *)
Definition eq_cubic_two_vars : list Token :=
  [var "x"; sym "^"; num 3; sym "+"; var "y"; sym "="; num 5].
(* x^0=1 *)
Definition eq_exponent_zero : list Token :=
  [var "x"; sym "^"; num 0; sym "="; num 1].
(* x^3000000000=0 : an exponent beyond the [int] range *)
Definition eq_exponent_overflow : list Token :=
  [var "x"; sym "^"; num 3000000000; sym "="; num 0].
(* x=1 2 : an equation followed by a stray token *)
Definition eq_trailing : list Token :=
  [var "x"; sym "="; num 1; num 2].

(** ** Notions the properties are stated with *)

(** The exponent values written in a token list: the payload of every
    Number token that directly follows a ['^']. *)
Fixpoint exponents (l : list Token) : list Q :=
  match l with
  | [] => []
  | t :: rest =>
      match t, rest with
      | Symbol s, Number q :: _ =>
          if Ascii.eqb s "^" then q :: exponents rest else exponents rest
      | _, _ => exponents rest
      end
  end.

(** The largest of [b] and the integral parts of the exponent values
    [qs]. *)
Definition maxExponent (b : Z) (qs : list Q) : Z :=
  fold_left (fun m q => Z.max m (truncate q)) qs b.

(** The value converts to [int]: its integral part is in the [int] range. *)
Definition fitsInt (w : Q) : Prop := INT_MIN <= truncate w <= INT_MAX.

(** The conditional assignment of [valueNumber], and its effect over the
    exponent values [qs] read one after the other. *)
Definition store (b : Z) (q : Q) : Z :=
  if double_gt_int q b then double_to_int q else b.

Definition accumulate (b : Z) (qs : list Q) : Z := fold_left store qs b.

Definition isCaret (t : Token) : bool :=
  match t with Symbol s => Ascii.eqb s "^" | _ => false end.

Definition isSymbol (c : ascii) (t : Token) : bool :=
  match t with Symbol s => Ascii.eqb s c | _ => false end.

Definition isNumber (t : Token) : bool :=
  match t with Number _ => true | _ => false end.

(** The token under the cursor satisfies [f]; [false] at [NULL]. *)
Definition startsWith (f : Token -> bool) (l : list Token) : bool :=
  match l with t :: _ => f t | [] => false end.

Definition endsCaret (p : list Token) : bool := isCaret (last p (Symbol "+")).

(** [Trace st p st']: from [st] the tokens [p] were consumed, leaving the
    cursor of [st'], and the accumulator of [st'] is the one of [st] after
    the exponents written in [p] were stored in turn. *)
Definition Trace (st : State) (p : list Token) (st' : State) : Prop :=
  lp st = p ++ lp st' /\
  biggestExponent st' = accumulate (biggestExponent st) (exponents p).

(** A matcher is traced when each run consumes a prefix of the cursor and
    accumulates its exponents, and a successful run does not stop right
    after a ['^']. *)
Definition traced {A} (ok : A -> bool) (m : M A) : Prop :=
  forall st, exists p,
    Trace st p (snd (m st)) /\ (ok (fst (m st)) = true -> endsCaret p = false).

Definition okLoop (r : option bool) : bool :=
  match r with Some true => true | _ => false end.

(** A matcher is clean when a rejecting run leaves the state as it was. *)
Definition clean (m : M bool) : Prop :=
  forall st, fst (m st) = false -> snd (m st) = st.

(** The spellings of the Identifier tokens of a list, in order. *)
Fixpoint identifiers (l : list Token) : list string :=
  match l with
  | [] => []
  | Identifier s :: rest => s :: identifiers rest
  | _ :: rest => identifiers rest
  end.

(** The messages that report a valid equation. *)
Definition reportsEquation (msgs : list Message) : bool :=
  existsb (fun m => match m with
                    | InOneVariable | NotInOneVariable => true
                    | _ => false
                    end) msgs.

(** ** The grammar of the comments in the source

    [acceptTerm]: "<nat> | [ <nat>] <identifier> ['^' <nat>]";
    [acceptExpression]: "['-'] <term> {'+' <term> | '-' <term>}";
    [acceptEquation]: "<expression> '=' <expression>". *)

Definition isIdentifier (t : Token) : bool :=
  match t with Identifier _ => true | _ => false end.

Inductive Term : list Token -> Prop :=
| Term_number q : Term [Number q]
| Term_number_identifier q s : Term [Number q; Identifier s]
| Term_number_power q s e :
    Term [Number q; Identifier s; Symbol "^"; Number e]
| Term_identifier s : Term [Identifier s]
| Term_power s e : Term [Identifier s; Symbol "^"; Number e].

(** [{'+' <term> | '-' <term>}] *)
Inductive Terms : list Token -> Prop :=
| Terms_nil : Terms []
| Terms_cons c t ts :
    c = "+"%char \/ c = "-"%char -> Term t -> Terms ts ->
    Terms (Symbol c :: t ++ ts).

Inductive Expression : list Token -> Prop :=
| Expression_plain t ts : Term t -> Terms ts -> Expression (t ++ ts)
| Expression_minus t ts :
    Term t -> Terms ts -> Expression (Symbol "-" :: t ++ ts).

Inductive Equation : list Token -> Prop :=
| Equation_intro l1 l2 :
    Expression l1 -> Expression l2 -> Equation (l1 ++ Symbol "=" :: l2).

(** An expression without the leading ['-']. *)
Inductive PlainExpression : list Token -> Prop :=
| PlainExpression_intro t ts :
    Term t -> Terms ts -> PlainExpression (t ++ ts).

(** What may follow an expression for the matchers to stop there: no
    token that would continue a term or the sum. *)
Definition stops (rest : list Token) : Prop :=
  startsWith isIdentifier rest = false /\
  startsWith isCaret rest = false /\
  startsWith (isSymbol "+") rest = false /\
  startsWith (isSymbol "-") rest = false.

(** Two runs of a matcher from the same cursor with different accumulators
    give the same result and the same cursor. *)
Definition accumulatorBlind {A} (m : M A) : Prop :=
  forall l b1 b2,
    fst (m (mkState l b1)) = fst (m (mkState l b2)) /\
    lp (snd (m (mkState l b1))) = lp (snd (m (mkState l b2))).

(** Every run of the matcher removes at most [n] tokens from the front of
    the cursor. *)
Definition consumes {A} (n : nat) (m : M A) : Prop :=
  forall st, exists p,
    lp st = p ++ lp (snd (m st)) /\ (List.length p <= n)%nat.

(** Every ['^'] of the list is directly followed by a Number token. *)
Fixpoint caretsFollowed (l : list Token) : bool :=
  match l with
  | [] => true
  | t :: rest =>
      (if isCaret t then startsWith isNumber rest else true)
      && caretsFollowed rest
  end.

(** The degrees among the messages of a session. *)
Definition degrees (out : list (list Message)) : list Z :=
  flat_map (fun msgs =>
              flat_map (fun m => match m with OfDegree d => [d] | _ => [] end)
                       msgs) out.

(** ** The first version of the recognizer

    The file also holds the first version of the recognizer (its header
    names it recognizeExp.c), with the same primitive matchers and its own
    [acceptExponent], [acceptTerm], [acceptExpression], [acceptEquation]
    and driver [recognizeExpressions].  In its [acceptExponent] the
    statements after [return acceptNumber(lp);] (the only calls of
    [returnValue], which converts the pointer [*lp] to [int]) are never
    executed, so they have no counterpart here. *)
Module RecognizeExp.

Definition acceptExponent : M bool :=
  c <- acceptCharacter "^" ;;
  if c then acceptNumber else ret false.

Definition acceptTerm : M bool :=
  n <- acceptNumber ;;
  if n then
    i <- acceptIdentifier ;;
    if i then acceptExponent else ret true
  else
    i <- acceptIdentifier ;;
    if i then acceptExponent else ret false.

(** The [while] loop of [acceptExpression], with the iterations counted as
    for the current version. *)
Fixpoint acceptExpression_loop (fuel : nat) : M (option bool) :=
  match fuel with
  | O => ret None
  | S fuel' =>
      c <- orElse (acceptCharacter "+") (acceptCharacter "-") ;;
      if c then
        t <- acceptTerm ;;
        if negb t then ret (Some false) else acceptExpression_loop fuel'
      else ret (Some true)
  end.

Definition acceptExpression_while : M bool := fun st =>
  let (r, st') := acceptExpression_loop (S (List.length (lp st))) st in
  (match r with Some b => b | None => false end, st').

Definition acceptExpression : M bool :=
  t <- acceptTerm ;;
  if negb t then ret false else acceptExpression_while.

Definition acceptEquation : M bool :=
  e <- acceptExpression ;;
  if negb e then ret false
  else
    c <- acceptCharacter "=" ;;
    if c then
      e2 <- acceptExpression ;;
      if negb e2 then ret false else ret true
    else ret true.

(** What [recognizeExpressions] prints for a line. *)
Inductive Message : Type :=
| InOneVariable            (* "this is an equation in 1 variable" *)
| OfDegrees (d : Z)        (* " of %d degrees" *)
| NotAnEquation.           (* "this is not an equation\n" *)

(** The body of the [while] loop of [recognizeExpressions] for one token
    list. *)
Definition recognizeExpression (tl : list Token) (b : Z) : list Message * Z :=
  let (r, st) := acceptEquation (mkState tl b) in
  if r && isNull (lp st) then
    ([InOneVariable; OfDegrees (biggestExponent st)], biggestExponent st)
  else ([NotAnEquation], biggestExponent st).

Fixpoint recognizeExpressions (lines : list (list Token)) (b : Z)
  : list (list Message) * Z :=
  match lines with
  | [] => ([], b)
  | tl :: rest =>
      let (msgs, b1) := recognizeExpression tl b in
      let (out, b2) := recognizeExpressions rest b1 in
      (msgs :: out, b2)
  end.

(** The terms of the first version: an identifier always carries an
    exponent. *)
Inductive Term : list Token -> Prop :=
| Term_number q : Term [Number q]
| Term_number_power q s e :
    Term [Number q; Identifier s; Symbol "^"; Number e]
| Term_power s e : Term [Identifier s; Symbol "^"; Number e].

End RecognizeExp.

(** A matcher that never writes the accumulator and never lengthens the
    cursor. *)
Definition keepsAccumulator {A} (m : M A) : Prop :=
  forall st,
    biggestExponent (snd (m st)) = biggestExponent st /\
    (List.length (lp (snd (m st))) <= List.length (lp st))%nat.

(** ** Runs on the inputs of the spec *)

Example run_cubic :
  recognizeEquation eq_cubic 0 = ([InOneVariable; OfDegree 3], 0).
Proof. reflexivity. Qed.

Example run_linear :
  recognizeEquation eq_linear 0 = ([InOneVariable; OfDegree 1], 0).
Proof. reflexivity. Qed.

Example run_two_vars :
  recognizeEquation eq_two_vars 0 = ([NotInOneVariable], 0).
Proof. reflexivity. Qed.

Example run_negative_exponent :
  fst (recognizeEquation eq_negative_exponent 0) = [NotAnEquation].
Proof. reflexivity. Qed.

Example run_no_vars :
  recognizeEquation eq_no_vars 0 = ([NotInOneVariable], 0).
Proof. reflexivity. Qed.

Example run_exponent_overflow :
  valueNumber 0 (mkState [num 3000000000] 0)
  = (true, inject_Z 3000000000, mkState [] (-2147483648)) /\
  recognizeEquation eq_exponent_overflow 0
  = ([InOneVariable; OfDegree (-2147483648)], 0).
Proof. split; reflexivity. Qed.

(** ** Arithmetic of the exponent update *)

Lemma double_gt_int_iff (w : Q) (b : Z) :
  double_gt_int w b = true <-> (inject_Z b < w)%Q.
Proof.
  unfold double_gt_int. rewrite negb_true_iff.
  split; intros H.
  - apply Qnot_le_lt. intros Hle. apply Qle_bool_iff in Hle. congruence.
  - destruct (Qle_bool w (inject_Z b)) eqn:E; [|reflexivity].
    apply Qle_bool_iff in E. exfalso. exact (Qlt_not_le _ _ H E).
Qed.

Lemma quot_lower (n d b : Z) : 0 < d -> b * d < n -> b <= Z.quot n d.
Proof.
  intros Hd Hlt.
  pose proof (Z.quot_rem' n d) as E.
  pose proof (Z.rem_bound_abs n d ltac:(lia)) as R.
  nia.
Qed.

Lemma quot_upper (n d b : Z) : 0 < d -> n <= b * d -> Z.quot n d <= b.
Proof.
  intros Hd Hle.
  pose proof (Z.quot_rem' n d) as E.
  pose proof (Z.rem_bound_abs n d ltac:(lia)) as R.
  nia.
Qed.

Lemma double_to_int_fits (w : Q) : fitsInt w -> double_to_int w = truncate w.
Proof.
  unfold fitsInt, double_to_int. intros [L U]. cbv zeta.
  apply Z.leb_le in L, U. rewrite L, U. reflexivity.
Qed.

(** Whatever the value, the conversion delivers an [int]. *)
Lemma double_to_int_range (w : Q) : INT_MIN <= double_to_int w <= INT_MAX.
Proof.
  unfold double_to_int. cbv zeta.
  destruct (Z.leb_spec INT_MIN (truncate w));
    destruct (Z.leb_spec (truncate w) INT_MAX); simpl;
    unfold INT_MIN, INT_MAX in *; lia.
Qed.

(** On a value that converts to [int] the conditional assignment of
    [valueNumber] computes a maximum. *)
Lemma update_max (w : Q) (b : Z) :
  fitsInt w ->
  (if double_gt_int w b then double_to_int w else b) = Z.max b (truncate w).
Proof.
  intros F. rewrite (double_to_int_fits w F).
  unfold double_gt_int, truncate, Qle_bool. destruct w as [n d]; simpl.
  destruct (Z.leb_spec (n * 1) (b * Z.pos d)); simpl.
  - pose proof (quot_upper n (Z.pos d) b ltac:(lia) ltac:(lia)). lia.
  - pose proof (quot_lower n (Z.pos d) b ltac:(lia) ltac:(lia)). lia.
Qed.

Lemma maxExponent_le (qs : list Q) (b : Z) : b <= maxExponent b qs.
Proof.
  unfold maxExponent. revert b.
  induction qs as [|q qs IH]; intros b; simpl; [lia|].
  specialize (IH (Z.max b (truncate q))). lia.
Qed.

Lemma accumulate_app (b : Z) (qs rs : list Q) :
  accumulate b (qs ++ rs) = accumulate (accumulate b qs) rs.
Proof. unfold accumulate. apply fold_left_app. Qed.

(** Over values that all convert to [int] the accumulator ends as the
    maximum. *)
Lemma accumulate_max (qs : list Q) (b : Z) :
  Forall fitsInt qs -> accumulate b qs = maxExponent b qs.
Proof.
  unfold accumulate, maxExponent. revert b.
  induction qs as [|q qs IH]; intros b F; [reflexivity|].
  inversion F as [|q' qs' Fq Fqs]; subst. simpl.
  unfold store at 2. rewrite (update_max q b Fq). apply IH. exact Fqs.
Qed.

(** An accumulator in the [int] range stays there. *)
Lemma accumulate_range (qs : list Q) (b : Z) :
  INT_MIN <= b <= INT_MAX -> INT_MIN <= accumulate b qs <= INT_MAX.
Proof.
  unfold accumulate. revert b.
  induction qs as [|q qs IH]; intros b R; [exact R|].
  simpl. apply IH. unfold store.
  destruct (double_gt_int q b); [apply double_to_int_range | exact R].
Qed.

(** ** Consumed prefixes and their exponents *)

Lemma endsCaret_cons (t u : Token) (p : list Token) :
  endsCaret (t :: u :: p) = endsCaret (u :: p).
Proof. reflexivity. Qed.

Lemma endsCaret_app_false (p1 p2 : list Token) :
  endsCaret p1 = false -> endsCaret p2 = false -> endsCaret (p1 ++ p2) = false.
Proof.
  intros H1 H2. induction p1 as [|t p1 IH]; [exact H2|].
  destruct p1 as [|u p1].
  - destruct p2 as [|v p2]; [exact H1|]. simpl app.
    rewrite endsCaret_cons. exact H2.
  - simpl app. rewrite endsCaret_cons. apply IH.
    rewrite endsCaret_cons in H1. exact H1.
Qed.

Lemma exponents_app (p1 p2 : list Token) :
  endsCaret p1 = false -> exponents (p1 ++ p2) = exponents p1 ++ exponents p2.
Proof.
  induction p1 as [|t p1 IH]; intros H; [reflexivity|].
  destruct p1 as [|u p1].
  - unfold endsCaret in H; simpl in H.
    destruct t as [q|s|c]; simpl; try reflexivity.
    simpl in H. rewrite H. destruct p2 as [|[]]; reflexivity.
  - rewrite endsCaret_cons in H. specialize (IH H).
    change ((t :: u :: p1) ++ p2) with (t :: (u :: p1) ++ p2).
    change (exponents (t :: (u :: p1) ++ p2))
      with (match t, (u :: p1) ++ p2 with
            | Symbol s, Number q :: _ =>
                if Ascii.eqb s "^" then q :: exponents ((u :: p1) ++ p2)
                else exponents ((u :: p1) ++ p2)
            | _, _ => exponents ((u :: p1) ++ p2)
            end).
    rewrite IH.
    destruct t as [q|s|c]; try reflexivity.
    destruct u as [q|s|c']; try reflexivity.
    simpl. destruct (Ascii.eqb c "^"); reflexivity.
Qed.

Lemma Trace_nil (st : State) : Trace st [] st.
Proof. split; reflexivity. Qed.

Lemma Trace_app (st st1 st2 : State) (p1 p2 : list Token) :
  Trace st p1 st1 -> Trace st1 p2 st2 -> endsCaret p1 = false ->
  Trace st (p1 ++ p2) st2.
Proof.
  intros [H1 B1] [H2 B2] E. split.
  - rewrite H1, H2. apply app_assoc.
  - rewrite (exponents_app _ _ E), accumulate_app, <- B1. exact B2.
Qed.

Lemma Trace_length (st st' : State) (p : list Token) :
  Trace st p st' -> (List.length (lp st') <= List.length (lp st))%nat.
Proof. intros [H _]. rewrite H, length_app. lia. Qed.

Lemma Trace_mono (st st' : State) (p : list Token) :
  Forall fitsInt (exponents p) ->
  Trace st p st' -> biggestExponent st <= biggestExponent st'.
Proof.
  intros F [_ H]. rewrite H, (accumulate_max _ _ F). apply maxExponent_le.
Qed.

(** The exponents written in a prefix are among those of the whole list. *)
Lemma exponents_prefix (P : Q -> Prop) (p rest : list Token) :
  Forall P (exponents (p ++ rest)) -> Forall P (exponents p).
Proof.
  induction p as [|t p IH]; intros H; [constructor|].
  destruct p as [|u p].
  - destruct t; constructor.
  - change ((t :: u :: p) ++ rest) with (t :: u :: (p ++ rest)) in H.
    change ((u :: p) ++ rest) with (u :: (p ++ rest)) in IH.
    destruct t as [q|s|c]; try (apply IH; exact H).
    destruct u as [q|s|c']; try (apply IH; exact H).
    simpl in H |- *. destruct (Ascii.eqb c "^").
    + inversion H; subst. constructor; [assumption|]. apply IH. assumption.
    + apply IH. exact H.
Qed.

(** ** Rules for traced matchers *)

Lemma traced_ret {A} (ok : A -> bool) (a : A) : traced ok (ret a).
Proof. intros st. exists []. split; [apply Trace_nil | reflexivity]. Qed.

Lemma traced_ext {A} (ok : A -> bool) (m m' : M A) :
  (forall st, m st = m' st) -> traced ok m -> traced ok m'.
Proof. intros E H st. rewrite <- E. apply H. Qed.

(** After a clean matcher either branch may run. *)
Lemma traced_bind_clean {A} (ok : A -> bool) (a : M bool) (f : bool -> M A) :
  traced (fun x => x) a -> clean a -> (forall x, traced ok (f x)) ->
  traced ok (bind a f).
Proof.
  intros Ha Ca Hf st. unfold bind.
  destruct (Ha st) as [p1 [T1 E1]]. specialize (Ca st).
  destruct (a st) as [x st1]; simpl in *.
  destruct (Hf x st1) as [p2 [T2 E2]].
  destruct x.
  - exists (p1 ++ p2). split.
    + apply (Trace_app _ st1); auto.
    + intros Hok. apply endsCaret_app_false; auto.
  - rewrite (Ca eq_refl) in *. exists p2. split; assumption.
Qed.

(** After a matcher that may reject anywhere, rejection must end the run. *)
Lemma traced_bind_stop {A} (ok : A -> bool) (a : M bool) (b : M A) (r : A) :
  traced (fun x => x) a -> traced ok b -> ok r = false ->
  traced ok (x <- a ;; if negb x then ret r else b).
Proof.
  intros Ha Hb Hr st. unfold bind.
  destruct (Ha st) as [p1 [T1 E1]].
  destruct (a st) as [x st1]; simpl in *.
  destruct x; simpl.
  - destruct (Hb st1) as [p2 [T2 E2]].
    exists (p1 ++ p2). split.
    + apply (Trace_app _ st1); auto.
    + intros Hok. apply endsCaret_app_false; auto.
  - exists p1. split; [exact T1|]. intros Hok. congruence.
Qed.

Lemma traced_andThen (a b : M bool) :
  traced (fun x => x) a -> traced (fun x => x) b ->
  traced (fun x => x) (andThen a b).
Proof.
  intros Ha Hb.
  apply (traced_ext _ (x <- a ;; if negb x then ret false else b)).
  - intros st. unfold andThen, bind. destruct (a st) as [[] st1]; reflexivity.
  - apply traced_bind_stop; auto.
Qed.

(** ** The primitive matchers are clean and traced *)

Lemma clean_acceptNumber : clean acceptNumber.
Proof.
  intros st. unfold acceptNumber.
  destruct (lp st) as [|[q|s|c] next]; simpl; congruence.
Qed.

Lemma clean_acceptIdentifier : clean acceptIdentifier.
Proof.
  intros st. unfold acceptIdentifier.
  destruct (lp st) as [|[q|s|c] next]; simpl; congruence.
Qed.

Lemma clean_acceptCharacter (c : ascii) : clean (acceptCharacter c).
Proof.
  intros st. unfold acceptCharacter.
  destruct (lp st) as [|[q|s|c'] next]; simpl; try congruence.
  destruct (Ascii.eqb c' c); simpl; congruence.
Qed.

Lemma traced_acceptNumber : traced (fun x => x) acceptNumber.
Proof.
  intros st. unfold acceptNumber.
  destruct (lp st) as [|[q|s|c] next] eqn:E; simpl;
    try (exists []; split; [apply Trace_nil | reflexivity]).
  exists [Number q]. repeat split. exact E.
Qed.

Lemma traced_acceptIdentifier : traced (fun x => x) acceptIdentifier.
Proof.
  intros st. unfold acceptIdentifier.
  destruct (lp st) as [|[q|s|c] next] eqn:E; simpl;
    try (exists []; split; [apply Trace_nil | reflexivity]).
  exists [Identifier s]. repeat split. exact E.
Qed.

Lemma traced_acceptCharacter (c : ascii) :
  Ascii.eqb c "^" = false -> traced (fun x => x) (acceptCharacter c).
Proof.
  intros Hc st. unfold acceptCharacter.
  destruct (lp st) as [|[q|s|c'] next] eqn:E; simpl;
    try (exists []; split; [apply Trace_nil | reflexivity]).
  destruct (Ascii.eqb_spec c' c) as [->|N]; simpl.
  - exists [Symbol c]. repeat split; [exact E|].
    intros _. unfold endsCaret. simpl. exact Hc.
  - exists []. split; [apply Trace_nil | reflexivity].
Qed.

(** ** The composite matchers are traced *)

Lemma traced_acceptExponent : traced (fun x => x) acceptExponent.
Proof.
  intros st. unfold acceptExponent, bind, acceptCharacter, valueNumber.
  destruct (lp st) as [|[q|s|c] next] eqn:E; simpl;
    try (exists []; split; [apply Trace_nil | reflexivity]).
  destruct (Ascii.eqb_spec c "^") as [->|N]; simpl;
    [|exists []; split; [apply Trace_nil | reflexivity]].
  destruct next as [|[q|s|c] next]; simpl.
  - exists [Symbol "^"].
    split; [split; [exact E | reflexivity] | discriminate].
  - exists [Symbol "^"; Number q].
    split; [split; [exact E | reflexivity] | reflexivity].
  - exists [Symbol "^"].
    split; [split; [exact E | reflexivity] | discriminate].
  - destruct (Ascii.eqb_spec c "-") as [->|N]; simpl.
    + exists [Symbol "^"; Symbol "-"].
      split; [split; [exact E | reflexivity] | discriminate].
    + exists [Symbol "^"].
      split; [split; [exact E | reflexivity] | discriminate].
Qed.

Lemma traced_acceptTerm : traced (fun x => x) acceptTerm.
Proof.
  unfold acceptTerm.
  apply traced_bind_clean;
    [apply traced_acceptNumber | apply clean_acceptNumber |].
  intros [|];
    (apply traced_bind_clean;
       [apply traced_acceptIdentifier | apply clean_acceptIdentifier |]);
    intros [|]; first [apply traced_acceptExponent | apply traced_ret].
Qed.

Lemma clean_plus_or_minus :
  clean (orElse (acceptCharacter "+") (acceptCharacter "-")).
Proof.
  intros st. unfold orElse, bind.
  pose proof (clean_acceptCharacter "+" st) as C1.
  destruct (acceptCharacter "+" st) as [[|] st1]; simpl in *; [discriminate|].
  rewrite (C1 eq_refl). apply clean_acceptCharacter.
Qed.

Lemma traced_plus_or_minus :
  traced (fun x => x) (orElse (acceptCharacter "+") (acceptCharacter "-")).
Proof.
  unfold orElse.
  apply traced_bind_clean;
    [apply traced_acceptCharacter; reflexivity | apply clean_acceptCharacter |].
  intros [|]; [apply traced_ret | apply traced_acceptCharacter; reflexivity].
Qed.

Lemma traced_acceptExpression_loop (fuel : nat) :
  traced okLoop (acceptExpression_loop fuel).
Proof.
  induction fuel as [|fuel IH]; simpl; [apply traced_ret|].
  apply traced_bind_clean;
    [apply traced_plus_or_minus | apply clean_plus_or_minus |].
  intros [|]; [|apply traced_ret].
  apply traced_bind_stop; [apply traced_acceptTerm | exact IH | reflexivity].
Qed.

Lemma traced_acceptExpression_while : traced (fun x => x) acceptExpression_while.
Proof.
  intros st. unfold acceptExpression_while.
  destruct (traced_acceptExpression_loop (S (List.length (lp st))) st)
    as [p [T E]].
  destruct (acceptExpression_loop (S (List.length (lp st))) st) as [r st'].
  simpl in *. exists p. split; [exact T|].
  intros H. apply E. destruct r as [[|]|]; try discriminate; reflexivity.
Qed.

Lemma traced_acceptExpression : traced (fun x => x) acceptExpression.
Proof.
  unfold acceptExpression.
  apply traced_bind_clean;
    [apply traced_acceptCharacter; reflexivity | apply clean_acceptCharacter |].
  intros [|];
    (apply traced_bind_stop;
       [apply traced_acceptTerm | apply traced_acceptExpression_while
       | reflexivity]).
Qed.

Lemma traced_acceptEquation : traced (fun x => x) acceptEquation.
Proof.
  unfold acceptEquation.
  repeat apply traced_andThen;
    first [apply traced_acceptExpression
          | apply traced_acceptCharacter; reflexivity].
Qed.

(** ** The loop of [acceptExpression] ends within its fuel *)

Lemma plus_or_minus_consumes (st st1 : State) :
  orElse (acceptCharacter "+") (acceptCharacter "-") st = (true, st1) ->
  List.length (lp st) = S (List.length (lp st1)).
Proof.
  unfold orElse, bind, acceptCharacter.
  destruct (lp st) as [|[q|s|c] next] eqn:E; simpl; rewrite ?E;
    try discriminate.
  destruct (Ascii.eqb c "+"); simpl.
  - intros [= <-]. reflexivity.
  - rewrite E. destruct (Ascii.eqb c "-"); simpl; [|discriminate].
    intros [= <-]. reflexivity.
Qed.

Lemma acceptExpression_loop_total (fuel : nat) (st : State) :
  (List.length (lp st) < fuel)%nat ->
  exists b, fst (acceptExpression_loop fuel st) = Some b.
Proof.
  revert st. induction fuel as [|fuel IH]; intros st H; [lia|].
  simpl. unfold bind at 1.
  destruct (orElse (acceptCharacter "+") (acceptCharacter "-") st)
    as [[|] st1] eqn:E1; [|exists true; reflexivity].
  apply plus_or_minus_consumes in E1.
  unfold bind.
  destruct (traced_acceptTerm st1) as [p [T _]].
  apply Trace_length in T.
  destruct (acceptTerm st1) as [[|] st2]; simpl in *.
  - apply IH. lia.
  - exists false. reflexivity.
Qed.

(** More fuel than needed does not change the run. *)
Lemma acceptExpression_loop_fuel (n m : nat) (st : State) :
  (List.length (lp st) < n)%nat -> (List.length (lp st) < m)%nat ->
  acceptExpression_loop n st = acceptExpression_loop m st.
Proof.
  revert m st. induction n as [|n IH]; intros m st Hn Hm; [lia|].
  destruct m as [|m]; [lia|].
  cbn [acceptExpression_loop]. unfold bind at 1 3.
  destruct (orElse (acceptCharacter "+") (acceptCharacter "-") st)
    as [[|] st1] eqn:E1; [|reflexivity].
  apply plus_or_minus_consumes in E1.
  unfold bind.
  destruct (traced_acceptTerm st1) as [p [T _]].
  apply Trace_length in T.
  destruct (acceptTerm st1) as [[|] st2]; simpl in *; [|reflexivity].
  apply IH; lia.
Qed.

(** [acceptExpression_while] never meets the end of its fuel. *)
Lemma acceptExpression_while_total (st : State) :
  exists b, acceptExpression_loop (S (List.length (lp st))) st
            = (Some b, snd (acceptExpression_while st)) /\
            fst (acceptExpression_while st) = b.
Proof.
  destruct (acceptExpression_loop_total (S (List.length (lp st))) st) as [b E];
    [lia|].
  exists b. unfold acceptExpression_while.
  destruct (acceptExpression_loop (S (List.length (lp st))) st) as [r st'].
  simpl in *. subst r. split; reflexivity.
Qed.

(** [acceptExpression_while] is the [while] loop: it satisfies the loop's
    own equation, in which no fuel appears. *)
Lemma acceptExpression_while_unroll (st : State) :
  acceptExpression_while st =
  (c <- orElse (acceptCharacter "+") (acceptCharacter "-") ;;
   if c then
     t <- acceptTerm ;;
     if negb t then ret false else acceptExpression_while
   else ret true) st.
Proof.
  unfold acceptExpression_while at 1. cbn [acceptExpression_loop].
  unfold bind at 1 3.
  destruct (orElse (acceptCharacter "+") (acceptCharacter "-") st)
    as [[|] st1] eqn:E1; [|reflexivity].
  apply plus_or_minus_consumes in E1.
  unfold bind.
  destruct (traced_acceptTerm st1) as [p [T _]].
  apply Trace_length in T.
  destruct (acceptTerm st1) as [[|] st2]; simpl in *; [|reflexivity].
  unfold acceptExpression_while.
  rewrite (acceptExpression_loop_fuel
             (List.length (lp st)) (S (List.length (lp st2))) st2) by lia.
  reflexivity.
Qed.

(** ** The empty token list *)

(** C10.  On the empty token list (cursor at [NULL]) [acceptNumber],
    [acceptIdentifier], [acceptCharacter], [acceptTerm], [acceptExpression]
    and [acceptEquation] return 0 and leave the cursor (and the
    accumulator) as they were, whereas [acceptExponent] returns 1, also
    without consuming anything. *)
Theorem matchers_on_empty_list (b : Z) (c : ascii) :
  let st := mkState [] b in
  acceptNumber st = (false, st) /\
  acceptIdentifier st = (false, st) /\
  acceptCharacter c st = (false, st) /\
  acceptTerm st = (false, st) /\
  acceptExpression st = (false, st) /\
  acceptEquation st = (false, st) /\
  acceptExponent st = (true, st).
Proof. repeat split. Qed.

(** ** The exponent matcher *)

Lemma acceptExponent_absent (st : State) :
  startsWith isCaret (lp st) = false -> acceptExponent st = (true, st).
Proof.
  unfold acceptExponent, bind, acceptCharacter.
  destruct (lp st) as [|[q|s|c] next]; simpl; try reflexivity.
  intros ->. reflexivity.
Qed.

Lemma acceptExponent_stray (rest : list Token) (b : Z) :
  startsWith (isSymbol "-") rest = false ->
  startsWith isNumber rest = false ->
  acceptExponent (mkState (Symbol "^" :: rest) b) = (false, mkState rest b).
Proof.
  unfold acceptExponent, bind, acceptCharacter, valueNumber. simpl.
  destruct rest as [|[q|s|c] next]; simpl; try reflexivity; try discriminate.
  intros -> _. reflexivity.
Qed.

(** C5.  [acceptExponent]: when the token under the cursor is not ['^']
    (or there is none) it returns 1 and consumes nothing; when it is ['^']
    the ['^'] is consumed, and then a following ['-'] makes it return 0, a
    following Number token is consumed and it returns 1, and anything else
    makes it return 0.  The tokens of [x^-2=0] are rejected by
    [acceptEquation] and reported as not an equation. *)
Theorem acceptExponent_cases :
  (forall st, startsWith isCaret (lp st) = false ->
              acceptExponent st = (true, st)) /\
  (forall next b,
      acceptExponent (mkState (Symbol "^" :: Symbol "-" :: next) b)
      = (false, mkState next b)) /\
  (forall q next b,
      acceptExponent (mkState (Symbol "^" :: Number q :: next) b)
      = (true,
         mkState next (if double_gt_int q b then double_to_int q else b))) /\
  (forall rest b,
      startsWith (isSymbol "-") rest = false ->
      startsWith isNumber rest = false ->
      acceptExponent (mkState (Symbol "^" :: rest) b)
      = (false, mkState rest b)) /\
  (forall b,
      fst (acceptEquation (mkState eq_negative_exponent b)) = false /\
      fst (recognizeEquation eq_negative_exponent b) = [NotAnEquation]).
Proof.
  split; [exact acceptExponent_absent|].
  split; [reflexivity|].
  split.
  { intros q next b. reflexivity. }
  split; [exact acceptExponent_stray|].
  intros b. split; reflexivity.
Qed.

Lemma acceptExponent_cases_witness :
  acceptExponent (mkState [num 7; sym "="] 0) = (true, mkState [num 7; sym "="] 0)
  /\ acceptExponent (mkState [sym "^"; var "y"] 0) = (false, mkState [var "y"] 0).
Proof.
  split.
  - apply (proj1 acceptExponent_cases). reflexivity.
  - apply (proj1 (proj2 (proj2 (proj2 acceptExponent_cases)))); reflexivity.
Defined.

(** ** The equation matcher *)

Lemma existsb_suffix {A} (f : A -> bool) (p l : list A) :
  existsb f (p ++ l) = false -> existsb f l = false.
Proof. rewrite existsb_app. apply orb_false_elim. Qed.

Lemma acceptCharacter_absent (c : ascii) (st : State) :
  existsb (isSymbol c) (lp st) = false -> acceptCharacter c st = (false, st).
Proof.
  unfold acceptCharacter.
  destruct (lp st) as [|[q|s|c'] next]; simpl; try reflexivity.
  intros H. apply orb_false_elim in H. destruct H as [-> _]. reflexivity.
Qed.

Lemma acceptEquation_unfold (st : State) :
  acceptEquation st =
  let (e1, st1) := acceptExpression st in
  if e1 then
    let (c, st2) := acceptCharacter "=" st1 in
    if c then acceptExpression st2 else (false, st2)
  else (false, st1).
Proof.
  unfold acceptEquation, andThen, bind, ret.
  destruct (acceptExpression st) as [[|] st1]; [|reflexivity].
  destruct (acceptCharacter "=" st1) as [[|] st2]; reflexivity.
Qed.

(** C4.  [acceptEquation] accepts exactly when an expression is matched,
    then ['='] is matched from where it stopped, then a second expression
    is matched from there; when the first expression or the ['='] fails
    nothing further is attempted (the state is the one that step left);
    so a token list without ['='] is never accepted as an equation. *)
Theorem acceptEquation_sequence :
  (forall st st',
      acceptEquation st = (true, st') <->
      exists st1 st2,
        acceptExpression st = (true, st1) /\
        acceptCharacter "=" st1 = (true, st2) /\
        acceptExpression st2 = (true, st')) /\
  (forall st st1,
      acceptExpression st = (false, st1) -> acceptEquation st = (false, st1)) /\
  (forall st st1,
      acceptExpression st = (true, st1) ->
      fst (acceptCharacter "=" st1) = false ->
      acceptEquation st = (false, st1)) /\
  (forall st,
      existsb (isSymbol "=") (lp st) = false ->
      fst (acceptEquation st) = false).
Proof.
  repeat split.
  - rewrite acceptEquation_unfold.
    destruct (acceptExpression st) as [[|] st1]; [|discriminate].
    destruct (acceptCharacter "=" st1) as [[|] st2] eqn:E2; [|discriminate].
    intros E3. exists st1, st2. auto.
  - intros [st1 [st2 [E1 [E2 E3]]]].
    rewrite acceptEquation_unfold, E1, E2. exact E3.
  - intros st st1 E1. rewrite acceptEquation_unfold, E1. reflexivity.
  - intros st st1 E1 E2. rewrite acceptEquation_unfold, E1.
    pose proof (clean_acceptCharacter "=" st1 E2) as C.
    destruct (acceptCharacter "=" st1) as [c st2]; simpl in *. subst. reflexivity.
  - intros st H. rewrite acceptEquation_unfold.
    destruct (traced_acceptExpression st) as [p [[T _] _]].
    destruct (acceptExpression st) as [[|] st1]; [|reflexivity].
    simpl in T. rewrite T in H. apply existsb_suffix in H.
    rewrite (acceptCharacter_absent _ _ H). reflexivity.
Qed.

Lemma acceptEquation_sequence_witness :
  acceptEquation (mkState [sym "+"] 0) = (false, mkState [sym "+"] 0) /\
  acceptEquation (mkState [var "x"; num 5] 0) = (false, mkState [num 5] 0) /\
  fst (acceptEquation (mkState [var "x"; sym "+"; num 5] 0)) = false /\
  acceptEquation (mkState eq_linear 0) = (true, mkState [] 0).
Proof.
  destruct acceptEquation_sequence as [H1 [H2 [H3 H4]]].
  split; [apply H2; reflexivity|].
  split; [apply H3; reflexivity|].
  split; [apply H4; reflexivity|].
  apply H1. exists (mkState [sym "="; num 0] 0), (mkState [num 0] 0).
  repeat split.
Defined.

(** ** Acceptance by the driver *)

Lemma recognizeEquation_unfold (tl : list Token) (b : Z) :
  recognizeEquation tl b =
  let st := snd (acceptEquation (mkState tl b)) in
  if fst (acceptEquation (mkState tl b)) && isNull (lp st) then
    if determineVariables tl =? 1 then
      ([InOneVariable;
        OfDegree (if biggestExponent st =? 0 then 1 else biggestExponent st)],
       0)
    else ([NotInOneVariable], biggestExponent st)
  else ([NotAnEquation], biggestExponent st).
Proof.
  unfold recognizeEquation.
  destruct (acceptEquation (mkState tl b)) as [r st]; simpl.
  destruct (r && isNull (lp st)); [|reflexivity].
  destruct (determineVariables tl =? 1); simpl; [|reflexivity].
  destruct (biggestExponent st =? 0); reflexivity.
Qed.

Lemma isNull_true (l : list Token) : isNull l = true <-> l = [].
Proof. destruct l; simpl; split; congruence. Qed.

(** C3.  A token list is reported as a valid equation if and only if
    [acceptEquation] returns 1 and the cursor is [NULL] afterwards; when
    [acceptEquation] returns 1 but tokens are left, and in every other
    case, the one message printed is "this is not an equation". *)
Theorem valid_iff_accepted_and_exhausted (tl : list Token) (b : Z) :
  (reportsEquation (fst (recognizeEquation tl b)) = true <->
   fst (acceptEquation (mkState tl b)) = true /\
   lp (snd (acceptEquation (mkState tl b))) = []) /\
  (fst (acceptEquation (mkState tl b)) = true ->
   lp (snd (acceptEquation (mkState tl b))) <> [] ->
   fst (recognizeEquation tl b) = [NotAnEquation]) /\
  (reportsEquation (fst (recognizeEquation tl b)) = false ->
   fst (recognizeEquation tl b) = [NotAnEquation]).
Proof.
  rewrite recognizeEquation_unfold. cbv zeta.
  destruct (acceptEquation (mkState tl b)) as [r st]; simpl.
  destruct r, (lp st) as [|t rest]; simpl;
    try (destruct (determineVariables tl =? 1); simpl);
    repeat split; intros; try congruence; try tauto;
    try (destruct H; congruence).
Qed.

Lemma valid_iff_accepted_and_exhausted_witness :
  fst (recognizeEquation eq_trailing 0) = [NotAnEquation] /\
  reportsEquation (fst (recognizeEquation eq_cubic 0)) = true.
Proof.
  split.
  - apply (proj1 (proj2 (valid_iff_accepted_and_exhausted eq_trailing 0)));
      [reflexivity | discriminate].
  - apply (proj1 (valid_iff_accepted_and_exhausted eq_cubic 0)).
    split; reflexivity.
Defined.

(** ** Counting the variables *)

Lemma strcmp_zero_iff (s t : string) : strcmp s t = 0 <-> s = t.
Proof.
  unfold strcmp. split.
  - destruct (String.compare s t) eqn:E; try discriminate.
    intros _. apply String.compare_eq_iff. exact E.
  - intros ->. pose proof (String.compare_antisym t t) as A.
    destruct (String.compare t t); simpl in A; congruence.
Qed.

Lemma strcmp_eqb (s t : string) : (strcmp s t =? 0) = String.eqb s t.
Proof.
  destruct (String.eqb_spec s t) as [E|N].
  - apply Z.eqb_eq, strcmp_zero_iff, E.
  - apply Z.eqb_neq. intros H. apply N, strcmp_zero_iff, H.
Qed.

(** Once a spelling is retained, the rest of the pass compares every later
    identifier with it and with nothing else. *)
Lemma determineVariables_loop_some (l : list Token) (x : string) :
  determineVariables_loop l (Some x) =
  if forallb (String.eqb x) (identifiers l) then 1 else 2.
Proof.
  induction l as [|[q|s|c] l IH]; simpl; auto.
  rewrite strcmp_eqb. destruct (String.eqb x s); simpl; auto.
Qed.

Lemma determineVariables_closed (l : list Token) :
  determineVariables l =
  match identifiers l with
  | [] => 0
  | x :: rest => if forallb (String.eqb x) rest then 1 else 2
  end.
Proof.
  unfold determineVariables.
  induction l as [|[q|s|c] l IH]; simpl; auto.
  rewrite strcmp_eqb, String.eqb_refl. simpl.
  apply determineVariables_loop_some.
Qed.

Lemma forallb_eqb_false (x : string) (rest : list string) :
  forallb (String.eqb x) rest = false <-> exists y, In y rest /\ y <> x.
Proof.
  induction rest as [|z rest IH]; simpl.
  - split; [discriminate | intros [y [[] _]]].
  - rewrite andb_false_iff, IH, String.eqb_neq. split.
    + intros [N | [y [Hy Ny]]]; [exists z | exists y]; auto.
    + intros [y [[<- | Hy] Ny]]; [left; congruence | right; exists y; auto].
Qed.

(** C6.  [determineVariables] returns 0 exactly when the list has no
    Identifier token, 2 exactly when the spelling of some Identifier token
    differs from the spelling of the first one, and 1 otherwise; the scan
    only keeps the first spelling.  The tokens of [x+y=3] give 2. *)
Theorem determineVariables_classifies (l : list Token) :
  (determineVariables l = 0 <-> identifiers l = []) /\
  (determineVariables l = 2 <->
   exists x rest, identifiers l = x :: rest /\ exists y, In y rest /\ y <> x) /\
  (determineVariables l = 1 <->
   exists x rest, identifiers l = x :: rest /\ forall y, In y rest -> y = x) /\
  (determineVariables l = 0 \/ determineVariables l = 1 \/
   determineVariables l = 2) /\
  determineVariables eq_two_vars = 2.
Proof.
  rewrite determineVariables_closed.
  destruct (identifiers l) as [|x rest].
  - repeat split; try discriminate; auto.
    + intros [x [rest [H _]]]. discriminate.
    + intros [x [rest [H _]]]. discriminate.
  - destruct (forallb (String.eqb x) rest) eqn:E.
    + assert (A : forall y, In y rest -> y = x).
      { intros y Hy. rewrite forallb_forall in E.
        symmetry. apply String.eqb_eq, E, Hy. }
      repeat split; try discriminate; auto.
      * intros [x' [rest' [[= <- <-] [y [Hy Ny]]]]]. elim Ny. auto.
      * intros _. exists x, rest. auto.
    + apply forallb_eqb_false in E.
      repeat split; try discriminate; auto.
      * intros _. exists x, rest. auto.
      * intros [x' [rest' [[= <- <-] A]]]. destruct E as [y [Hy Ny]].
        elim Ny. auto.
Qed.

Lemma determineVariables_classifies_witness :
  determineVariables eq_cubic_two_vars = 2 /\ determineVariables eq_no_vars = 0.
Proof.
  split.
  - apply (proj1 (proj2 (determineVariables_classifies eq_cubic_two_vars))).
    exists "x"%string, ["y"%string]. split; [reflexivity|].
    exists "y"%string. split; [left; reflexivity | discriminate].
  - apply (proj1 (determineVariables_classifies eq_no_vars)). reflexivity.
Defined.

(** ** The accumulator over a parse *)

Lemma exponents_no_caret (l : list Token) :
  existsb isCaret l = false -> exponents l = [].
Proof.
  induction l as [|t l IH]; [reflexivity|].
  simpl. intros H. apply orb_false_elim in H. destruct H as [Ht Hl].
  specialize (IH Hl).
  destruct t as [q|s|c]; simpl in *; try exact IH.
  rewrite Ht. destruct l as [|[]]; exact IH.
Qed.

(** A traced matcher that meets no ['^'] leaves the accumulator alone. *)
Lemma traced_no_caret {A} (ok : A -> bool) (m : M A) (st : State) :
  traced ok m -> existsb isCaret (lp st) = false ->
  biggestExponent (snd (m st)) = biggestExponent st.
Proof.
  intros Hm H. destruct (Hm st) as [p [[T B] _]].
  rewrite T, existsb_app in H. apply orb_false_elim in H.
  rewrite B, (exponents_no_caret p (proj1 H)). reflexivity.
Qed.

(** A parse that consumes the whole list has stored all of its exponents. *)
Lemma traced_exhausted {A} (ok : A -> bool) (m : M A) (st : State) :
  traced ok m -> lp (snd (m st)) = [] ->
  biggestExponent (snd (m st)) =
  accumulate (biggestExponent st) (exponents (lp st)).
Proof.
  intros Hm H. destruct (Hm st) as [p [[T B] _]].
  rewrite H, app_nil_r in T. rewrite T. exact B.
Qed.

(** C7, as the code has it.  For an accepted, fully consumed one-variable
    equation: without any ['^'] the accumulator is unchanged, so from the
    reset value 0 it is still 0 and the degree reported is 1.  The degree
    reported is the value accumulated when that is not 0, and 1 when it is
    0, whether or not an exponent was written.  When every exponent written
    converts to [int], the value accumulated is the largest of the value
    before the parse and the integral parts of the exponents. *)
Theorem degree_report (tl : list Token) (b : Z) (st : State) :
  acceptEquation (mkState tl b) = (true, st) ->
  lp st = [] ->
  determineVariables tl = 1 ->
  (Forall fitsInt (exponents tl) ->
   biggestExponent st = maxExponent b (exponents tl)) /\
  (existsb isCaret tl = false -> biggestExponent st = b) /\
  (b = 0 -> existsb isCaret tl = false ->
   recognizeEquation tl b = ([InOneVariable; OfDegree 1], 0)) /\
  (biggestExponent st <> 0 ->
   recognizeEquation tl b = ([InOneVariable; OfDegree (biggestExponent st)], 0)) /\
  (biggestExponent st = 0 ->
   recognizeEquation tl b = ([InOneVariable; OfDegree 1], 0)).
Proof.
  intros Hacc Hnil Hone.
  assert (R : recognizeEquation tl b =
              ([InOneVariable;
                OfDegree (if biggestExponent st =? 0 then 1
                          else biggestExponent st)], 0)).
  { rewrite recognizeEquation_unfold, Hacc. simpl. rewrite Hnil, Hone.
    reflexivity. }
  assert (U : existsb isCaret tl = false -> biggestExponent st = b).
  { intros H.
    pose proof (traced_no_caret _ _ (mkState tl b) traced_acceptEquation H) as E.
    rewrite Hacc in E. exact E. }
  split.
  { intros F.
    pose proof (traced_exhausted _ _ (mkState tl b) traced_acceptEquation) as E.
    rewrite Hacc in E. simpl in E. rewrite (E Hnil).
    apply accumulate_max. exact F. }
  split; [exact U|].
  split.
  { intros Hb H. rewrite R, (U H), Hb. reflexivity. }
  split.
  - intros N. rewrite R. apply Z.eqb_neq in N. rewrite N. reflexivity.
  - intros Z0. rewrite R, Z0. reflexivity.
Qed.

Lemma degree_report_witness :
  recognizeEquation eq_linear 0 = ([InOneVariable; OfDegree 1], 0) /\
  recognizeEquation eq_cubic 0 = ([InOneVariable; OfDegree 3], 0) /\
  biggestExponent (mkState [] 3) = maxExponent 0 (exponents eq_cubic).
Proof.
  split; [|split].
  - apply (degree_report eq_linear 0 (mkState [] 0)); reflexivity.
  - apply (degree_report eq_cubic 0 (mkState [] 3));
      try reflexivity; discriminate.
  - apply (proj1 (degree_report eq_cubic 0 (mkState [] 3)
                    eq_refl eq_refl eq_refl)).
    repeat constructor; discriminate.
Defined.

(** C7 as stated fails: in [x^0=1] an exponent is written, the equation is
    accepted, fully consumed and has one variable, the accumulated maximum
    is 0, and the degree reported is 1. *)
Lemma exponent_zero_reported_as_degree_one :
  ~ (forall tl st,
        acceptEquation (mkState tl 0) = (true, st) ->
        lp st = [] ->
        determineVariables tl = 1 ->
        existsb isCaret tl = true ->
        fst (recognizeEquation tl 0)
        = [InOneVariable; OfDegree (biggestExponent st)]).
Proof.
  intros H.
  specialize (H eq_exponent_zero (mkState [] 0)
                eq_refl eq_refl eq_refl eq_refl).
  discriminate H.
Qed.

(** The matchers never lower the accumulator over exponents that convert
    to [int]. *)
Lemma traced_mono {A} (ok : A -> bool) (m : M A) (st : State) :
  traced ok m -> Forall fitsInt (exponents (lp st)) ->
  biggestExponent st <= biggestExponent (snd (m st)).
Proof.
  intros Hm F. destruct (Hm st) as [p [T _]].
  apply (Trace_mono _ _ p); [|exact T].
  destruct T as [L _]. rewrite L in F. exact (exponents_prefix _ _ _ F).
Qed.

(** The matchers keep the accumulator within the [int] range. *)
Lemma traced_range {A} (ok : A -> bool) (m : M A) (st : State) :
  traced ok m -> INT_MIN <= biggestExponent st <= INT_MAX ->
  INT_MIN <= biggestExponent (snd (m st)) <= INT_MAX.
Proof.
  intros Hm R. destruct (Hm st) as [p [[_ B] _]].
  rewrite B. apply accumulate_range. exact R.
Qed.

(** C8, as the code has it.  [valueNumber] stores the integral part of the
    value read when the value exceeds the accumulator, and leaves the
    accumulator alone otherwise.  Over exponents that convert to [int] no
    matcher lowers the accumulator, and after [acceptEquation] it is the
    largest of its value before and the integral parts of the exponents
    written in the tokens consumed.  The accumulator never leaves the
    [int] range. *)
Theorem accumulator_never_decreases :
  (forall wp q next b,
      let b' := biggestExponent
                  (snd (valueNumber wp (mkState (Number q :: next) b))) in
      (fitsInt q -> (inject_Z b < q)%Q -> b' = truncate q) /\
      (~ (inject_Z b < q)%Q -> b' = b) /\
      (fitsInt q -> b <= b')) /\
  (forall c st,
      biggestExponent (snd (acceptNumber st)) = biggestExponent st /\
      biggestExponent (snd (acceptIdentifier st)) = biggestExponent st /\
      biggestExponent (snd (acceptCharacter c st)) = biggestExponent st) /\
  (forall st,
      Forall fitsInt (exponents (lp st)) ->
      biggestExponent st <= biggestExponent (snd (acceptExponent st)) /\
      biggestExponent st <= biggestExponent (snd (acceptTerm st)) /\
      biggestExponent st <= biggestExponent (snd (acceptExpression st)) /\
      biggestExponent st <= biggestExponent (snd (acceptEquation st))) /\
  (forall st,
      Forall fitsInt (exponents (lp st)) ->
      exists p,
        lp st = p ++ lp (snd (acceptEquation st)) /\
        biggestExponent (snd (acceptEquation st))
        = maxExponent (biggestExponent st) (exponents p)) /\
  (forall st,
      INT_MIN <= biggestExponent st <= INT_MAX ->
      INT_MIN <= biggestExponent (snd (acceptEquation st)) <= INT_MAX).
Proof.
  split.
  { intros wp q next b. unfold valueNumber. simpl.
    pose proof (double_gt_int_iff q b) as G.
    pose proof (update_max q b) as U.
    destruct (double_gt_int q b).
    - split; [|split].
      + intros F _. rewrite (double_to_int_fits q F). reflexivity.
      + intros N. elim N. apply G. reflexivity.
      + intros F. rewrite (U F). lia.
    - split; [|split].
      + intros _ L. apply G in L. discriminate.
      + reflexivity.
      + intros _. lia. }
  split.
  { intros c st. unfold acceptNumber, acceptIdentifier, acceptCharacter.
    destruct (lp st) as [|[q|s|c'] next]; simpl; auto.
    destruct (Ascii.eqb c' c); auto. }
  split.
  { intros st F. repeat split; eapply traced_mono;
      first [apply traced_acceptExponent | apply traced_acceptTerm
            | apply traced_acceptExpression | apply traced_acceptEquation
            | exact F]. }
  split.
  { intros st F. destruct (traced_acceptEquation st) as [p [[L B] _]].
    exists p. split; [exact L|]. rewrite B. apply accumulate_max.
    rewrite L in F. exact (exponents_prefix _ _ _ F). }
  intros st R. exact (traced_range _ _ st traced_acceptEquation R).
Qed.

Lemma accumulator_never_decreases_witness :
  biggestExponent (snd (valueNumber 0 (mkState [num 3] 0))) = 3 /\
  biggestExponent (snd (valueNumber 0 (mkState [num 3] 5))) = 5 /\
  0 <= biggestExponent (snd (acceptEquation (mkState eq_cubic 0))).
Proof.
  split; [|split].
  - apply (proj1 (proj1 accumulator_never_decreases 0%Q (inject_Z 3) [] 0)).
    + split; discriminate.
    + reflexivity.
  - apply (proj1 (proj2 (proj1 accumulator_never_decreases
                           0%Q (inject_Z 3) [] 5))).
    discriminate.
  - apply (proj1 (proj2 (proj2 accumulator_never_decreases))
             (mkState eq_cubic 0)).
    repeat constructor; discriminate.
Defined.

(** C8 as stated fails: the exponent of [x^3000000000=0] exceeds the
    accumulator 0 and does not convert to [int]; the parse leaves
    [INT_MIN] in the accumulator, which is lower than before. *)
Lemma accumulator_lowered_out_of_range :
  ~ (forall st,
        biggestExponent st <= biggestExponent (snd (acceptEquation st))).
Proof.
  intros H. specialize (H (mkState eq_exponent_overflow 0)).
  vm_compute in H. apply H. reflexivity.
Qed.

(** ** Conversion of the exponent to [int] *)





(** ** Rejection and the cursor *)

(** C1 at its failing inputs.  [acceptEquation] rejects the tokens of [x]
    with the cursor moved to the end of the list, and [acceptExponent]
    rejects [^-2] with the cursor moved past ['^'] and ['-']; [acceptTerm]
    and [acceptExpression] reject with the cursor moved as well. *)
Theorem rejection_moves_cursor :
  acceptEquation (mkState [var "x"] 0) = (false, mkState [] 0) /\
  acceptExponent (mkState [sym "^"; sym "-"; num 2] 0)
  = (false, mkState [num 2] 0) /\
  acceptTerm (mkState [var "x"; sym "^"; sym "-"; num 2] 0)
  = (false, mkState [num 2] 0) /\
  acceptExpression (mkState [var "x"; sym "+"] 0) = (false, mkState [] 0) /\
  acceptEquation (mkState eq_negative_exponent 0)
  = (false, mkState [num 2; sym "="; num 0] 0).
Proof. repeat split. Qed.

(** ** The accumulator between lines *)

(** C2 at its failing inputs.  After the accepted two-variable line
    [x^3+y=5], and after the rejected line [x^3], the accumulator is 3 when
    the next line is matched, and the next line [x+5=0] is reported with
    degree 3. *)
Theorem accumulator_not_reset :
  recognizeEquation eq_cubic_two_vars 0 = ([NotInOneVariable], 3) /\
  recognizeEquation [var "x"; sym "^"; num 3] 0 = ([NotAnEquation], 3) /\
  recognizeEquations [eq_cubic_two_vars; eq_linear] 0
  = ([[NotInOneVariable]; [InOneVariable; OfDegree 3]], 0) /\
  recognizeEquations [[var "x"; sym "^"; num 3]; eq_linear] 0
  = ([[NotAnEquation]; [InOneVariable; OfDegree 3]], 0).
Proof. repeat split. Qed.

(** ** Inversion of the matchers *)

Lemma acceptNumber_true (st st' : State) :
  acceptNumber st = (true, st') ->
  exists q, lp st = Number q :: lp st' /\
            biggestExponent st' = biggestExponent st.
Proof.
  unfold acceptNumber.
  destruct (lp st) as [|[q|s|c] next]; simpl; try discriminate.
  intros [= <-]. exists q. split; reflexivity.
Qed.

Lemma acceptIdentifier_true (st st' : State) :
  acceptIdentifier st = (true, st') ->
  exists s, lp st = Identifier s :: lp st' /\
            biggestExponent st' = biggestExponent st.
Proof.
  unfold acceptIdentifier.
  destruct (lp st) as [|[q|s|c] next]; simpl; try discriminate.
  intros [= <-]. exists s. split; reflexivity.
Qed.

Lemma acceptCharacter_true (c : ascii) (st st' : State) :
  acceptCharacter c st = (true, st') ->
  lp st = Symbol c :: lp st' /\ biggestExponent st' = biggestExponent st.
Proof.
  unfold acceptCharacter.
  destruct (lp st) as [|[q|s|c'] next]; simpl; try discriminate.
  destruct (Ascii.eqb_spec c' c) as [->|N]; simpl; [|discriminate].
  intros [= <-]. split; reflexivity.
Qed.

Lemma rejected_unchanged (m : M bool) (st st' : State) :
  clean m -> m st = (false, st') -> st' = st.
Proof. intros C E. specialize (C st). rewrite E in C. apply C. reflexivity. Qed.

Lemma plus_or_minus_true (st st' : State) :
  orElse (acceptCharacter "+") (acceptCharacter "-") st = (true, st') ->
  exists c, (c = "+"%char \/ c = "-"%char) /\ lp st = Symbol c :: lp st'.
Proof.
  unfold orElse, bind.
  destruct (acceptCharacter "+" st) as [[|] st1] eqn:E1.
  - intros [= <-]. apply acceptCharacter_true in E1. exists "+"%char.
    split; [left; reflexivity | apply E1].
  - apply rejected_unchanged in E1; [|apply clean_acceptCharacter]. subst st1.
    intros E2. apply acceptCharacter_true in E2. exists "-"%char.
    split; [right; reflexivity | apply E2].
Qed.

Lemma acceptExponent_true (st st' : State) :
  acceptExponent st = (true, st') ->
  st' = st \/ exists e, lp st = Symbol "^" :: Number e :: lp st'.
Proof.
  unfold acceptExponent, bind, acceptCharacter, valueNumber.
  destruct (lp st) as [|[q|s|c] next] eqn:E; simpl;
    try (intros [= <-]; left; reflexivity).
  destruct (Ascii.eqb_spec c "^") as [->|N]; simpl;
    [|intros [= <-]; left; reflexivity].
  destruct next as [|[q|s|c] next]; simpl; try discriminate.
  - intros [= <-]. right. exists q. reflexivity.
  - destruct (Ascii.eqb c "-"); simpl; discriminate.
Qed.

(** ** What the matchers accept is in the grammar *)

Lemma acceptTerm_true (st st' : State) :
  acceptTerm st = (true, st') -> exists t, Term t /\ lp st = t ++ lp st'.
Proof.
  unfold acceptTerm, bind.
  destruct (acceptNumber st) as [[|] st1] eqn:E1.
  - apply acceptNumber_true in E1. destruct E1 as [q [L1 _]].
    destruct (acceptIdentifier st1) as [[|] st2] eqn:E2.
    + apply acceptIdentifier_true in E2. destruct E2 as [s [L2 _]].
      intros E3. apply acceptExponent_true in E3.
      destruct E3 as [-> | [e L3]].
      * exists [Number q; Identifier s]. split; [constructor|].
        rewrite L1, L2. reflexivity.
      * exists [Number q; Identifier s; Symbol "^"; Number e].
        split; [constructor|]. rewrite L1, L2, L3. reflexivity.
    + apply rejected_unchanged in E2; [|apply clean_acceptIdentifier].
      subst st2. intros [= <-]. exists [Number q]. split; [constructor|].
      exact L1.
  - apply rejected_unchanged in E1; [|apply clean_acceptNumber]. subst st1.
    destruct (acceptIdentifier st) as [[|] st2] eqn:E2; [|discriminate].
    apply acceptIdentifier_true in E2. destruct E2 as [s [L2 _]].
    intros E3. apply acceptExponent_true in E3.
    destruct E3 as [-> | [e L3]].
    + exists [Identifier s]. split; [constructor | exact L2].
    + exists [Identifier s; Symbol "^"; Number e]. split; [constructor|].
      rewrite L2, L3. reflexivity.
Qed.

Lemma acceptExpression_loop_true (fuel : nat) (st st' : State) :
  acceptExpression_loop fuel st = (Some true, st') ->
  exists ts, Terms ts /\ lp st = ts ++ lp st'.
Proof.
  revert st. induction fuel as [|fuel IH]; intros st; [discriminate|].
  cbn [acceptExpression_loop]. unfold bind at 1.
  destruct (orElse (acceptCharacter "+") (acceptCharacter "-") st)
    as [[|] st1] eqn:E1.
  - apply plus_or_minus_true in E1. destruct E1 as [c [Hc L1]].
    unfold bind.
    destruct (acceptTerm st1) as [[|] st2] eqn:E2; simpl; [|discriminate].
    apply acceptTerm_true in E2. destruct E2 as [t [Ht L2]].
    intros E3. apply IH in E3. destruct E3 as [ts [Hts L3]].
    exists (Symbol c :: t ++ ts). split; [constructor; assumption|].
    rewrite L1, L2, L3. simpl. rewrite app_assoc. reflexivity.
  - apply rejected_unchanged in E1; [|apply clean_plus_or_minus]. subst st1.
    intros [= <-]. exists []. split; [constructor | reflexivity].
Qed.

Lemma acceptExpression_while_true (st st' : State) :
  acceptExpression_while st = (true, st') ->
  exists ts, Terms ts /\ lp st = ts ++ lp st'.
Proof.
  unfold acceptExpression_while.
  destruct (acceptExpression_loop (S (List.length (lp st))) st)
    as [[[|]|] st2] eqn:E; try discriminate.
  intros [= <-]. exact (acceptExpression_loop_true _ _ _ E).
Qed.

Lemma acceptExpression_true (st st' : State) :
  acceptExpression st = (true, st') ->
  exists l, Expression l /\ lp st = l ++ lp st'.
Proof.
  unfold acceptExpression, bind.
  destruct (acceptCharacter "-" st) as [[|] st1] eqn:E1;
    (destruct (acceptTerm st1) as [[|] st2] eqn:E2; simpl; [|discriminate]);
    apply acceptTerm_true in E2; destruct E2 as [t [Ht L2]];
    intros E3; apply acceptExpression_while_true in E3;
    destruct E3 as [ts [Hts L3]].
  - apply acceptCharacter_true in E1. destruct E1 as [L1 _].
    exists (Symbol "-" :: t ++ ts). split; [constructor; assumption|].
    rewrite L1, L2, L3. simpl. rewrite app_assoc. reflexivity.
  - apply rejected_unchanged in E1; [|apply clean_acceptCharacter]. subst st1.
    exists (t ++ ts). split; [constructor; assumption|].
    rewrite L2, L3. rewrite app_assoc. reflexivity.
Qed.

Lemma acceptEquation_true (st st' : State) :
  acceptEquation st = (true, st') ->
  exists l, Equation l /\ lp st = l ++ lp st'.
Proof.
  rewrite acceptEquation_unfold.
  destruct (acceptExpression st) as [[|] st1] eqn:E1; [|discriminate].
  destruct (acceptCharacter "=" st1) as [[|] st2] eqn:E2; [|discriminate].
  intros E3.
  apply acceptExpression_true in E1. destruct E1 as [l1 [H1 L1]].
  apply acceptCharacter_true in E2. destruct E2 as [L2 _].
  apply acceptExpression_true in E3. destruct E3 as [l2 [H2 L3]].
  exists (l1 ++ Symbol "=" :: l2). split; [constructor; assumption|].
  rewrite L1, L2, L3, <- app_assoc. reflexivity.
Qed.

(** ** What is in the grammar is accepted *)

Lemma acceptTerm_complete (t rest : list Token) (b : Z) :
  Term t ->
  startsWith isIdentifier rest = false -> startsWith isCaret rest = false ->
  exists b', acceptTerm (mkState (t ++ rest) b) = (true, mkState rest b').
Proof.
  intros Ht Hi Hc.
  destruct Ht;
    unfold acceptTerm, bind, acceptNumber, acceptIdentifier, acceptExponent,
      bind, acceptCharacter, valueNumber; simpl;
    try (eexists; reflexivity);
    destruct rest as [|[q'|s'|c'] rest']; simpl in *;
    try discriminate; try rewrite Hc; eexists; reflexivity.
Qed.

Lemma Terms_follow (ts rest : list Token) :
  Terms ts -> stops rest ->
  startsWith isIdentifier (ts ++ rest) = false /\
  startsWith isCaret (ts ++ rest) = false.
Proof.
  intros Hts [Hi [Hc _]]. destruct Hts as [|c t ts Hpm _ _]; [auto|].
  simpl. split; [reflexivity|]. destruct Hpm as [-> | ->]; reflexivity.
Qed.

Lemma acceptExpression_while_stop (st : State) :
  startsWith (isSymbol "+") (lp st) = false ->
  startsWith (isSymbol "-") (lp st) = false ->
  acceptExpression_while st = (true, st).
Proof.
  intros Hp Hm. rewrite acceptExpression_while_unroll.
  destruct st as [l b]. unfold bind, orElse, bind, acceptCharacter.
  destruct l as [|[q|s|c] next]; simpl in *; try reflexivity.
  rewrite Hp. simpl. rewrite Hm. reflexivity.
Qed.

Lemma acceptExpression_while_step (c : ascii) (l : list Token) (b : Z) :
  c = "+"%char \/ c = "-"%char ->
  acceptExpression_while (mkState (Symbol c :: l) b) =
  (t <- acceptTerm ;;
   if negb t then ret false else acceptExpression_while) (mkState l b).
Proof.
  intros Hc. rewrite acceptExpression_while_unroll.
  unfold bind at 1.
  replace (orElse (acceptCharacter "+") (acceptCharacter "-")
             (mkState (Symbol c :: l) b)) with (true, mkState l b);
    [reflexivity|].
  destruct Hc as [-> | ->]; reflexivity.
Qed.

Lemma acceptExpression_while_complete (ts : list Token) :
  Terms ts -> forall rest b, stops rest ->
  exists b', acceptExpression_while (mkState (ts ++ rest) b)
             = (true, mkState rest b').
Proof.
  induction 1 as [|c t ts Hc Ht Hts IH]; intros rest b Hs.
  - exists b. apply acceptExpression_while_stop; apply Hs.
  - simpl. rewrite (acceptExpression_while_step _ _ _ Hc).
    rewrite <- app_assoc. unfold bind.
    destruct (Terms_follow ts rest Hts Hs) as [Fi Fc].
    destruct (acceptTerm_complete t (ts ++ rest) b Ht Fi Fc) as [b1 E1].
    rewrite E1. simpl. apply IH. exact Hs.
Qed.

Lemma Term_head (t rest : list Token) :
  Term t -> startsWith (isSymbol "-") (t ++ rest) = false.
Proof. intros Ht. destruct Ht; reflexivity. Qed.

Lemma acceptExpression_complete (l rest : list Token) (b : Z) :
  Expression l -> stops rest ->
  exists b', acceptExpression (mkState (l ++ rest) b) = (true, mkState rest b').
Proof.
  intros Hl Hs. destruct Hl as [t ts Ht Hts | t ts Ht Hts].
  - unfold acceptExpression, bind.
    assert (E0 : acceptCharacter "-" (mkState ((t ++ ts) ++ rest) b)
                 = (false, mkState ((t ++ ts) ++ rest) b)).
    { rewrite <- app_assoc. pose proof (Term_head t (ts ++ rest) Ht) as H.
      unfold acceptCharacter. simpl.
      destruct (t ++ ts ++ rest) as [|[q|s|c] next]; simpl in *;
        try reflexivity.
      rewrite H. reflexivity. }
    rewrite E0. rewrite <- app_assoc.
    destruct (Terms_follow ts rest Hts Hs) as [Fi Fc].
    destruct (acceptTerm_complete t (ts ++ rest) b Ht Fi Fc) as [b1 E1].
    rewrite E1. simpl. apply acceptExpression_while_complete; assumption.
  - unfold acceptExpression, bind.
    change (acceptCharacter "-"
              (mkState ((Symbol "-" :: t ++ ts) ++ rest) b))
      with (true, mkState ((t ++ ts) ++ rest) b).
    rewrite <- app_assoc.
    destruct (Terms_follow ts rest Hts Hs) as [Fi Fc].
    destruct (acceptTerm_complete t (ts ++ rest) b Ht Fi Fc) as [b1 E1].
    rewrite E1. simpl. apply acceptExpression_while_complete; assumption.
Qed.

Lemma stops_nil : stops [].
Proof. repeat split. Qed.

Lemma stops_equals (l : list Token) : stops (Symbol "=" :: l).
Proof. repeat split. Qed.

Lemma acceptEquation_complete (l rest : list Token) (b : Z) :
  Equation l -> stops rest ->
  exists b', acceptEquation (mkState (l ++ rest) b) = (true, mkState rest b').
Proof.
  intros Hl Hs. destruct Hl as [l1 l2 H1 H2].
  rewrite acceptEquation_unfold. rewrite <- app_assoc.
  destruct (acceptExpression_complete l1 ((Symbol "=" :: l2) ++ rest) b H1
              (stops_equals _)) as [b1 E1].
  rewrite E1.
  change (acceptCharacter "=" (mkState ((Symbol "=" :: l2) ++ rest) b1))
    with (true, mkState (l2 ++ rest) b1).
  cbv iota. apply acceptExpression_complete; assumption.
Qed.

(** X1.  What a matcher accepts is a phrase of the grammar in the comments
    of the source: when [acceptTerm], [acceptExpression] or
    [acceptEquation] returns 1, the tokens it consumed form a term, an
    expression or an equation, and the cursor is left right after them. *)
Theorem accepted_is_in_grammar (st : State) :
  (fst (acceptTerm st) = true ->
   exists t, Term t /\ lp st = t ++ lp (snd (acceptTerm st))) /\
  (fst (acceptExpression st) = true ->
   exists l, Expression l /\ lp st = l ++ lp (snd (acceptExpression st))) /\
  (fst (acceptEquation st) = true ->
   exists l, Equation l /\ lp st = l ++ lp (snd (acceptEquation st))).
Proof.
  split; [|split].
  - destruct (acceptTerm st) as [r st'] eqn:E. simpl. intros ->.
    exact (acceptTerm_true _ _ E).
  - destruct (acceptExpression st) as [r st'] eqn:E. simpl. intros ->.
    exact (acceptExpression_true _ _ E).
  - destruct (acceptEquation st) as [r st'] eqn:E. simpl. intros ->.
    exact (acceptEquation_true _ _ E).
Qed.

Lemma accepted_is_in_grammar_witness :
  exists l, Equation l /\
            lp (mkState eq_trailing 0)
            = l ++ lp (snd (acceptEquation (mkState eq_trailing 0))).
Proof.
  apply (proj2 (proj2 (accepted_is_in_grammar (mkState eq_trailing 0)))).
  reflexivity.
Defined.

(** X2.  Every phrase of the grammar is accepted: on a term, expression or
    equation followed by tokens that cannot continue it (no Identifier,
    ['^'], ['+'] or ['-'] next; in particular the end of the list), the
    matcher returns 1 and leaves the cursor exactly at those tokens. *)
Theorem grammar_is_accepted (l rest : list Token) (b : Z) :
  stops rest ->
  (Term l ->
   fst (acceptTerm (mkState (l ++ rest) b)) = true /\
   lp (snd (acceptTerm (mkState (l ++ rest) b))) = rest) /\
  (Expression l ->
   fst (acceptExpression (mkState (l ++ rest) b)) = true /\
   lp (snd (acceptExpression (mkState (l ++ rest) b))) = rest) /\
  (Equation l ->
   fst (acceptEquation (mkState (l ++ rest) b)) = true /\
   lp (snd (acceptEquation (mkState (l ++ rest) b))) = rest).
Proof.
  intros Hs. split; [|split]; intros Hl.
  - destruct Hs as [Hi [Hc _]].
    destruct (acceptTerm_complete l rest b Hl Hi Hc) as [b' E].
    rewrite E. split; reflexivity.
  - destruct (acceptExpression_complete l rest b Hl Hs) as [b' E].
    rewrite E. split; reflexivity.
  - destruct (acceptEquation_complete l rest b Hl Hs) as [b' E].
    rewrite E. split; reflexivity.
Qed.

Lemma eq_linear_in_grammar : Equation eq_linear.
Proof.
  apply (Equation_intro [var "x"; sym "+"; num 5] [num 0]).
  - apply (Expression_plain [var "x"] [sym "+"; num 5]); [constructor|].
    apply (Terms_cons "+" [num 5] []);
      [left; reflexivity | constructor | constructor].
  - apply (Expression_plain [num 0] []); constructor.
Defined.

Lemma grammar_is_accepted_witness :
  fst (acceptEquation (mkState (eq_linear ++ [sym "="]) 0)) = true /\
  lp (snd (acceptEquation (mkState (eq_linear ++ [sym "="]) 0))) = [sym "="].
Proof.
  apply (proj2 (proj2 (grammar_is_accepted eq_linear [sym "="] 0
                         (stops_equals []))) eq_linear_in_grammar).
Defined.

(** X3.  The driver reports a line as an equation exactly when its whole
    token list is an equation of the grammar; then the report depends only
    on [determineVariables], and otherwise it is "this is not an
    equation". *)
Theorem reports_equation_iff_grammar (tl : list Token) (b : Z) :
  (reportsEquation (fst (recognizeEquation tl b)) = true <-> Equation tl) /\
  (Equation tl -> determineVariables tl = 1 ->
   exists d, fst (recognizeEquation tl b) = [InOneVariable; OfDegree d]) /\
  (Equation tl -> determineVariables tl <> 1 ->
   fst (recognizeEquation tl b) = [NotInOneVariable]) /\
  (~ Equation tl -> fst (recognizeEquation tl b) = [NotAnEquation]).
Proof.
  assert (A : Equation tl ->
              exists b', acceptEquation (mkState tl b) = (true, mkState [] b')).
  { intros H. pose proof (acceptEquation_complete tl [] b H stops_nil) as E.
    rewrite app_nil_r in E. exact E. }
  assert (B : fst (acceptEquation (mkState tl b)) = true ->
              lp (snd (acceptEquation (mkState tl b))) = [] -> Equation tl).
  { destruct (acceptEquation (mkState tl b)) as [r st'] eqn:E. simpl.
    intros -> Hn. apply acceptEquation_true in E. destruct E as [l [Hl L]].
    simpl in L. rewrite Hn, app_nil_r in L. subst l. exact Hl. }
  rewrite recognizeEquation_unfold. cbv zeta.
  split; [split|split; [|split]].
  - intros H.
    destruct (fst (acceptEquation (mkState tl b))) eqn:E1; simpl in H;
      [|discriminate].
    destruct (lp (snd (acceptEquation (mkState tl b)))) eqn:E2; simpl in H;
      [|discriminate].
    apply B; auto.
  - intros H. destruct (A H) as [b' E]. rewrite E. simpl.
    destruct (determineVariables tl =? 1); reflexivity.
  - intros H D. destruct (A H) as [b' E]. rewrite E. simpl.
    rewrite D. simpl. eexists. reflexivity.
  - intros H D. destruct (A H) as [b' E]. rewrite E. simpl.
    apply Z.eqb_neq in D. rewrite D. reflexivity.
  - intros N.
    destruct (fst (acceptEquation (mkState tl b))) eqn:E1; simpl;
      [|reflexivity].
    destruct (lp (snd (acceptEquation (mkState tl b)))) eqn:E2; simpl;
      [|reflexivity].
    elim N. apply B; auto.
Qed.

Lemma reports_equation_iff_grammar_witness :
  reportsEquation (fst (recognizeEquation eq_linear 7)) = true /\
  exists d, fst (recognizeEquation eq_linear 7) = [InOneVariable; OfDegree d].
Proof.
  split.
  - apply (proj1 (reports_equation_iff_grammar eq_linear 7)).
    exact eq_linear_in_grammar.
  - apply (proj1 (proj2 (reports_equation_iff_grammar eq_linear 7)));
      [exact eq_linear_in_grammar | reflexivity].
Defined.

(** ** Recognition does not read the accumulator *)

Lemma blind_ret {A} (a : A) : accumulatorBlind (ret a).
Proof. intros l b1 b2. split; reflexivity. Qed.

Lemma blind_bind {A B} (a : M A) (f : A -> M B) :
  accumulatorBlind a -> (forall x, accumulatorBlind (f x)) ->
  accumulatorBlind (bind a f).
Proof.
  intros Ha Hf l b1 b2. unfold bind.
  destruct (Ha l b1 b2) as [R C].
  destruct (a (mkState l b1)) as [x1 [l1 c1]].
  destruct (a (mkState l b2)) as [x2 [l2 c2]].
  simpl in R, C. subst x2 l2. apply Hf.
Qed.

Lemma blind_acceptNumber : accumulatorBlind acceptNumber.
Proof.
  intros l b1 b2. unfold acceptNumber. simpl.
  destruct l as [|[q|s|c] next]; split; reflexivity.
Qed.

Lemma blind_acceptIdentifier : accumulatorBlind acceptIdentifier.
Proof.
  intros l b1 b2. unfold acceptIdentifier. simpl.
  destruct l as [|[q|s|c] next]; split; reflexivity.
Qed.

Lemma blind_acceptCharacter (c : ascii) : accumulatorBlind (acceptCharacter c).
Proof.
  intros l b1 b2. unfold acceptCharacter. simpl.
  destruct l as [|[q|s|c'] next]; try (split; reflexivity).
  destruct (Ascii.eqb c' c); split; reflexivity.
Qed.

Lemma blind_valueNumber (wp : Q) : accumulatorBlind (valueNumber wp).
Proof.
  intros l b1 b2. unfold valueNumber. simpl.
  destruct l as [|[q|s|c] next]; split; reflexivity.
Qed.

Lemma blind_acceptExponent : accumulatorBlind acceptExponent.
Proof.
  unfold acceptExponent.
  apply blind_bind; [apply blind_acceptCharacter|].
  intros [|]; [|apply blind_ret].
  apply blind_bind; [apply blind_acceptCharacter|].
  intros [|]; [apply blind_ret|].
  apply blind_bind; [apply blind_valueNumber | intros r; apply blind_ret].
Qed.

Lemma blind_acceptTerm : accumulatorBlind acceptTerm.
Proof.
  unfold acceptTerm.
  apply blind_bind; [apply blind_acceptNumber|].
  intros [|]; (apply blind_bind; [apply blind_acceptIdentifier|]);
    intros [|]; first [apply blind_acceptExponent | apply blind_ret].
Qed.

Lemma blind_plus_or_minus :
  accumulatorBlind (orElse (acceptCharacter "+") (acceptCharacter "-")).
Proof.
  unfold orElse. apply blind_bind; [apply blind_acceptCharacter|].
  intros [|]; [apply blind_ret | apply blind_acceptCharacter].
Qed.

Lemma blind_acceptExpression_loop (fuel : nat) :
  accumulatorBlind (acceptExpression_loop fuel).
Proof.
  induction fuel as [|fuel IH]; cbn [acceptExpression_loop];
    [apply blind_ret|].
  apply blind_bind; [apply blind_plus_or_minus|].
  intros [|]; [|apply blind_ret].
  apply blind_bind; [apply blind_acceptTerm|].
  intros [|]; simpl; [exact IH | apply blind_ret].
Qed.

Lemma blind_acceptExpression_while : accumulatorBlind acceptExpression_while.
Proof.
  intros l b1 b2. unfold acceptExpression_while. cbn [lp].
  destruct (blind_acceptExpression_loop (S (List.length l)) l b1 b2) as [R C].
  destruct (acceptExpression_loop (S (List.length l)) (mkState l b1))
    as [r1 st1].
  destruct (acceptExpression_loop (S (List.length l)) (mkState l b2))
    as [r2 st2].
  cbn [fst snd] in *. subst r2. split; [reflexivity | exact C].
Qed.

Lemma blind_acceptExpression : accumulatorBlind acceptExpression.
Proof.
  unfold acceptExpression.
  apply blind_bind; [apply blind_acceptCharacter|].
  intros [|]; (apply blind_bind; [apply blind_acceptTerm|]);
    intros [|]; simpl;
    first [apply blind_acceptExpression_while | apply blind_ret].
Qed.

Lemma blind_acceptEquation : accumulatorBlind acceptEquation.
Proof.
  unfold acceptEquation, andThen.
  apply blind_bind.
  - apply blind_bind; [apply blind_acceptExpression|].
    intros [|]; [apply blind_acceptCharacter | apply blind_ret].
  - intros [|]; [apply blind_acceptExpression | apply blind_ret].
Qed.

(** X4.  Recognition never depends on [biggestExponent]: from the same
    cursor, whatever the accumulator holds, [acceptExponent], [acceptTerm],
    [acceptExpression] and [acceptEquation] return the same result and
    leave the same cursor, and the driver prints the same report up to the
    degree it names. *)
Theorem recognition_ignores_accumulator (l : list Token) (b1 b2 : Z) :
  (fst (acceptExponent (mkState l b1)) = fst (acceptExponent (mkState l b2)) /\
   lp (snd (acceptExponent (mkState l b1)))
   = lp (snd (acceptExponent (mkState l b2)))) /\
  (fst (acceptTerm (mkState l b1)) = fst (acceptTerm (mkState l b2)) /\
   lp (snd (acceptTerm (mkState l b1)))
   = lp (snd (acceptTerm (mkState l b2)))) /\
  (fst (acceptExpression (mkState l b1))
   = fst (acceptExpression (mkState l b2)) /\
   lp (snd (acceptExpression (mkState l b1)))
   = lp (snd (acceptExpression (mkState l b2)))) /\
  (fst (acceptEquation (mkState l b1)) = fst (acceptEquation (mkState l b2)) /\
   lp (snd (acceptEquation (mkState l b1)))
   = lp (snd (acceptEquation (mkState l b2)))) /\
  map (fun m => match m with OfDegree _ => OfDegree 0 | _ => m end)
      (fst (recognizeEquation l b1))
  = map (fun m => match m with OfDegree _ => OfDegree 0 | _ => m end)
        (fst (recognizeEquation l b2)).
Proof.
  split; [apply blind_acceptExponent|].
  split; [apply blind_acceptTerm|].
  split; [apply blind_acceptExpression|].
  split; [apply blind_acceptEquation|].
  rewrite !recognizeEquation_unfold. cbv zeta.
  destruct (blind_acceptEquation l b1 b2) as [R C]. rewrite R, C.
  destruct (fst (acceptEquation (mkState l b2))
            && isNull (lp (snd (acceptEquation (mkState l b2)))));
    [|reflexivity].
  destruct (determineVariables l =? 1); reflexivity.
Qed.

(** ** How many tokens a matcher consumes *)

Lemma consumes_ret {A} (a : A) : consumes 0 (ret a).
Proof. intros st. exists []. split; [reflexivity | simpl; lia]. Qed.

Lemma consumes_weaken {A} (n k : nat) (m : M A) :
  (n <= k)%nat -> consumes n m -> consumes k m.
Proof.
  intros L H st. destruct (H st) as [p [E B]]. exists p. split; [exact E | lia].
Qed.

Lemma consumes_bind {A B} (n k : nat) (a : M A) (f : A -> M B) :
  consumes n a -> (forall x, consumes k (f x)) -> consumes (n + k) (bind a f).
Proof.
  intros Ha Hf st. unfold bind.
  destruct (Ha st) as [p1 [E1 B1]].
  destruct (a st) as [x st1]; simpl in *.
  destruct (Hf x st1) as [p2 [E2 B2]].
  exists (p1 ++ p2). split.
  - rewrite E1, E2. apply app_assoc.
  - rewrite length_app. lia.
Qed.

Lemma consumes_acceptNumber : consumes 1 acceptNumber.
Proof.
  intros [l b]. unfold acceptNumber.
  destruct l as [|[q|s|c] next]; simpl;
    try (exists []; split; [reflexivity | simpl; lia]).
  exists [Number q]. split; [reflexivity | simpl; lia].
Qed.

Lemma consumes_acceptIdentifier : consumes 1 acceptIdentifier.
Proof.
  intros [l b]. unfold acceptIdentifier.
  destruct l as [|[q|s|c] next]; simpl;
    try (exists []; split; [reflexivity | simpl; lia]).
  exists [Identifier s]. split; [reflexivity | simpl; lia].
Qed.

Lemma consumes_acceptCharacter (c : ascii) : consumes 1 (acceptCharacter c).
Proof.
  intros [l b]. unfold acceptCharacter.
  destruct l as [|[q|s|c'] next]; simpl;
    try (exists []; split; [reflexivity | simpl; lia]).
  destruct (Ascii.eqb c' c); simpl.
  - exists [Symbol c']. split; [reflexivity | simpl; lia].
  - exists []. split; [reflexivity | simpl; lia].
Qed.

Lemma consumes_acceptExponent : consumes 2 acceptExponent.
Proof.
  intros st. destruct st as [l b].
  unfold acceptExponent, bind, acceptCharacter, valueNumber.
  destruct l as [|[q|s|c] next]; simpl;
    try (exists []; split; [reflexivity | simpl; lia]).
  destruct (Ascii.eqb c "^"); simpl;
    [|exists []; split; [reflexivity | simpl; lia]].
  destruct next as [|[q|s|c1] next]; simpl.
  - exists [Symbol c]. split; [reflexivity | simpl; lia].
  - exists [Symbol c; Number q]. split; [reflexivity | simpl; lia].
  - exists [Symbol c]. split; [reflexivity | simpl; lia].
  - destruct (Ascii.eqb c1 "-"); simpl.
    + exists [Symbol c; Symbol c1]. split; [reflexivity | simpl; lia].
    + exists [Symbol c]. split; [reflexivity | simpl; lia].
Qed.

Lemma consumes_acceptTerm : consumes 4 acceptTerm.
Proof.
  unfold acceptTerm.
  apply (consumes_bind 1 3); [apply consumes_acceptNumber|].
  intros [|]; (apply (consumes_bind 1 2); [apply consumes_acceptIdentifier|]);
    intros [|];
    first [apply consumes_acceptExponent
          | apply (consumes_weaken 0); [lia | apply consumes_ret]].
Qed.

Lemma Term_length (t : list Token) : Term t -> (1 <= List.length t)%nat.
Proof. intros H. destruct H; simpl; lia. Qed.

Lemma Expression_length (l : list Token) :
  Expression l -> (1 <= List.length l)%nat.
Proof.
  intros H. destruct H as [t ts Ht _ | t ts Ht _];
    apply Term_length in Ht; simpl; rewrite ?length_app; lia.
Qed.

Lemma Equation_length (l : list Token) : Equation l -> (3 <= List.length l)%nat.
Proof.
  intros H. destruct H as [l1 l2 H1 H2].
  apply Expression_length in H1, H2. rewrite length_app. simpl. lia.
Qed.

(** X5.  Bounds on consumption.  The cursor a matcher leaves is the cursor
    it was given with some tokens removed from the front: at most one for
    the primitive matchers, two for [acceptExponent] and four for
    [acceptTerm], whatever the result.  An accepted term or expression has
    consumed at least one token and an accepted equation at least three. *)
Theorem token_consumption :
  consumes 1 acceptNumber /\ consumes 1 acceptIdentifier /\
  (forall c, consumes 1 (acceptCharacter c)) /\
  consumes 2 acceptExponent /\ consumes 4 acceptTerm /\
  (forall st, exists p, lp st = p ++ lp (snd (acceptExpression st))) /\
  (forall st, exists p, lp st = p ++ lp (snd (acceptEquation st))) /\
  (forall st, fst (acceptTerm st) = true ->
     (List.length (lp (snd (acceptTerm st))) + 1 <= List.length (lp st))%nat) /\
  (forall st, fst (acceptExpression st) = true ->
     (List.length (lp (snd (acceptExpression st))) + 1
      <= List.length (lp st))%nat) /\
  (forall st, fst (acceptEquation st) = true ->
     (List.length (lp (snd (acceptEquation st))) + 3
      <= List.length (lp st))%nat).
Proof.
  split; [exact consumes_acceptNumber|].
  split; [exact consumes_acceptIdentifier|].
  split; [exact consumes_acceptCharacter|].
  split; [exact consumes_acceptExponent|].
  split; [exact consumes_acceptTerm|].
  split.
  { intros st. destruct (traced_acceptExpression st) as [p [[T _] _]].
    exists p. exact T. }
  split.
  { intros st. destruct (traced_acceptEquation st) as [p [[T _] _]].
    exists p. exact T. }
  split; [|split]; intros st H.
  - destruct (acceptTerm st) as [r st'] eqn:E. simpl in *. subst r.
    apply acceptTerm_true in E. destruct E as [t [Ht L]].
    apply Term_length in Ht. rewrite L, length_app. lia.
  - destruct (acceptExpression st) as [r st'] eqn:E. simpl in *. subst r.
    apply acceptExpression_true in E. destruct E as [l [Hl L]].
    apply Expression_length in Hl. rewrite L, length_app. lia.
  - destruct (acceptEquation st) as [r st'] eqn:E. simpl in *. subst r.
    apply acceptEquation_true in E. destruct E as [l [Hl L]].
    apply Equation_length in Hl. rewrite L, length_app. lia.
Qed.

Lemma token_consumption_witness :
  (List.length (lp (snd (acceptEquation (mkState eq_trailing 0)))) + 3
   <= List.length (lp (mkState eq_trailing 0)))%nat.
Proof.
  apply (proj2 (proj2 (proj2 (proj2 (proj2 (proj2 (proj2 (proj2 (proj2
           token_consumption))))))))).
  reflexivity.
Defined.

(** X6.  The [while] loop of [acceptExpression] ends: run with any bound on
    its iterations larger than the number of tokens under the cursor, it
    finishes with a result before the bound is reached, and the result and
    final state are those of [acceptExpression_while], whatever the
    bound. *)
Theorem expression_loop_terminates (n : nat) (st : State) :
  (List.length (lp st) < n)%nat ->
  exists r,
    acceptExpression_loop n st = (Some r, snd (acceptExpression_while st)) /\
    fst (acceptExpression_while st) = r.
Proof.
  intros H.
  rewrite (acceptExpression_loop_fuel n (S (List.length (lp st)))) by lia.
  apply acceptExpression_while_total.
Qed.

Lemma expression_loop_terminates_witness :
  exists r,
    acceptExpression_loop 9 (mkState [sym "+"; num 5; sym "="; num 0] 0)
    = (Some r, snd (acceptExpression_while
                      (mkState [sym "+"; num 5; sym "="; num 0] 0))) /\
    fst (acceptExpression_while (mkState [sym "+"; num 5; sym "="; num 0] 0))
    = r.
Proof.
  apply (expression_loop_terminates 9
           (mkState [sym "+"; num 5; sym "="; num 0] 0)).
  simpl. lia.
Defined.

(** X7.  The primitive matchers, as the comment above them says: each
    returns 1 exactly when the token under the cursor is of its kind (for
    [acceptCharacter], the Symbol [c]), then the cursor is the rest of the
    list, and otherwise the state is untouched; none of them writes the
    accumulator.  [valueNumber] decides and moves like [acceptNumber], and
    leaves [*wp] alone when it returns 0. *)
Theorem primitive_matchers (c : ascii) (wp : Q) (st : State) :
  acceptNumber st
  = (startsWith isNumber (lp st),
     if startsWith isNumber (lp st)
     then mkState (List.tl (lp st)) (biggestExponent st) else st) /\
  acceptIdentifier st
  = (startsWith isIdentifier (lp st),
     if startsWith isIdentifier (lp st)
     then mkState (List.tl (lp st)) (biggestExponent st) else st) /\
  acceptCharacter c st
  = (startsWith (isSymbol c) (lp st),
     if startsWith (isSymbol c) (lp st)
     then mkState (List.tl (lp st)) (biggestExponent st) else st) /\
  fst (fst (valueNumber wp st)) = fst (acceptNumber st) /\
  lp (snd (valueNumber wp st)) = lp (snd (acceptNumber st)) /\
  (fst (acceptNumber st) = false -> valueNumber wp st = (false, wp, st)).
Proof.
  unfold acceptNumber, acceptIdentifier, acceptCharacter, valueNumber.
  destruct (lp st) as [|[q|s|c'] next]; simpl; repeat split; try discriminate.
  destruct (Ascii.eqb c' c); reflexivity.
Qed.

Lemma primitive_matchers_witness :
  valueNumber 1 (mkState [var "x"] 4) = (false, 1%Q, mkState [var "x"] 4).
Proof.
  apply (proj2 (proj2 (proj2 (proj2 (proj2
           (primitive_matchers "+" 1 (mkState [var "x"] 4))))))).
  reflexivity.
Defined.

(** ** Reports and sessions *)

Lemma acceptEquation_mono (tl : list Token) (b : Z) :
  Forall fitsInt (exponents tl) ->
  b <= biggestExponent (snd (acceptEquation (mkState tl b))).
Proof.
  intros F. exact (traced_mono _ _ (mkState tl b) traced_acceptEquation F).
Qed.

(** X8.  Every line gets one of three reports, never none: "not an
    equation", "not in 1 variable", or "in 1 variable" with a degree.  The
    degree printed is never 0.  After a one-variable report the accumulator
    is 0; after the other two it is what the parse left.  When every
    exponent written in the line converts to [int], the degree is at least
    1 if the accumulator was not negative, and after the other two reports
    the accumulator is never less than before. *)
Theorem report_shapes (tl : list Token) (b : Z) :
  (fst (recognizeEquation tl b) = [NotAnEquation] /\
   snd (recognizeEquation tl b)
   = biggestExponent (snd (acceptEquation (mkState tl b))) /\
   (Forall fitsInt (exponents tl) -> b <= snd (recognizeEquation tl b))) \/
  (fst (recognizeEquation tl b) = [NotInOneVariable] /\
   snd (recognizeEquation tl b)
   = biggestExponent (snd (acceptEquation (mkState tl b))) /\
   (Forall fitsInt (exponents tl) -> b <= snd (recognizeEquation tl b))) \/
  (exists d,
      fst (recognizeEquation tl b) = [InOneVariable; OfDegree d] /\
      d <> 0 /\
      (Forall fitsInt (exponents tl) -> 0 <= b -> 1 <= d) /\
      snd (recognizeEquation tl b) = 0).
Proof.
  rewrite recognizeEquation_unfold. cbv zeta.
  pose proof (acceptEquation_mono tl b) as Mo.
  destruct (fst (acceptEquation (mkState tl b))
            && isNull (lp (snd (acceptEquation (mkState tl b)))));
    [|left; repeat split; exact Mo].
  destruct (determineVariables tl =? 1);
    [|right; left; repeat split; exact Mo].
  right; right.
  destruct (Z.eqb_spec
              (biggestExponent (snd (acceptEquation (mkState tl b)))) 0)
    as [E|N].
  - exists 1. repeat split; lia.
  - eexists. repeat split; [exact N|]. intros F Hb. specialize (Mo F). lia.
Qed.

Lemma report_shapes_witness :
  exists d,
    fst (recognizeEquation eq_cubic 2) = [InOneVariable; OfDegree d] /\
    d <> 0 /\
    (Forall fitsInt (exponents eq_cubic) -> 0 <= 2 -> 1 <= d) /\
    snd (recognizeEquation eq_cubic 2) = 0.
Proof.
  destruct (report_shapes eq_cubic 2) as [[H _] | [[H _] | H]];
    [discriminate H | discriminate H | exact H].
Defined.

Lemma recognizeEquations_cons (tl : list Token) (rest : list (list Token))
      (b : Z) :
  recognizeEquations (tl :: rest) b =
  (fst (recognizeEquation tl b)
   :: fst (recognizeEquations rest (snd (recognizeEquation tl b))),
   snd (recognizeEquations rest (snd (recognizeEquation tl b)))).
Proof.
  simpl. destruct (recognizeEquation tl b) as [msgs b1]. simpl.
  destruct (recognizeEquations rest b1) as [out b2]. reflexivity.
Qed.

Lemma recognizeEquation_nonneg (tl : list Token) (b : Z) :
  Forall fitsInt (exponents tl) -> 0 <= b ->
  0 <= snd (recognizeEquation tl b) /\
  Forall (fun d => 1 <= d) (degrees [fst (recognizeEquation tl b)]).
Proof.
  intros F Hb. rewrite recognizeEquation_unfold. cbv zeta.
  pose proof (acceptEquation_mono tl b F) as Mo.
  destruct (fst (acceptEquation (mkState tl b))
            && isNull (lp (snd (acceptEquation (mkState tl b)))));
    [|split; [simpl; lia | constructor]].
  destruct (determineVariables tl =? 1);
    [|split; [simpl; lia | constructor]].
  split; [simpl; lia|].
  unfold degrees. simpl.
  destruct (Z.eqb_spec
              (biggestExponent (snd (acceptEquation (mkState tl b)))) 0);
    repeat constructor; lia.
Qed.

(** X10.  In a session started with a non-negative accumulator (the
    program starts it at 0) in which every exponent written converts to
    [int], the accumulator never becomes negative and every degree printed
    is at least 1. *)
Theorem session_degrees_positive (lines : list (list Token)) (b : Z) :
  Forall (fun tl => Forall fitsInt (exponents tl)) lines ->
  0 <= b ->
  0 <= snd (recognizeEquations lines b) /\
  Forall (fun d => 1 <= d) (degrees (fst (recognizeEquations lines b))).
Proof.
  intros F. revert b.
  induction F as [|tl lines Ftl Flines IH]; intros b Hb.
  - simpl. split; [exact Hb | constructor].
  - rewrite recognizeEquations_cons. cbn [fst snd].
    destruct (recognizeEquation_nonneg tl b Ftl Hb) as [Hb1 D].
    destruct (IH _ Hb1) as [I1 I2]. split; [exact I1|].
    unfold degrees in *. cbn [flat_map] in *. rewrite app_nil_r in D.
    apply Forall_app. split; assumption.
Qed.

Lemma session_degrees_positive_witness :
  0 <= snd (recognizeEquations [eq_cubic_two_vars; eq_linear] 0) /\
  Forall (fun d => 1 <= d)
         (degrees (fst (recognizeEquations [eq_cubic_two_vars; eq_linear] 0))).
Proof.
  apply (session_degrees_positive [eq_cubic_two_vars; eq_linear] 0).
  - repeat constructor; discriminate.
  - lia.
Defined.

Lemma exhausted_iff_Equation (tl : list Token) (b : Z) :
  fst (acceptEquation (mkState tl b)) = true /\
  lp (snd (acceptEquation (mkState tl b))) = [] <-> Equation tl.
Proof.
  split.
  - destruct (acceptEquation (mkState tl b)) as [r st'] eqn:E. simpl.
    intros [-> Hn]. apply acceptEquation_true in E. destruct E as [l [Hl L]].
    simpl in L. rewrite Hn, app_nil_r in L. subst l. exact Hl.
  - intros H. pose proof (acceptEquation_complete tl [] b H stops_nil) as E.
    rewrite app_nil_r in E. destruct E as [b' E]. rewrite E.
    split; reflexivity.
Qed.

Lemma one_variable_line (tl : list Token) (b : Z) :
  Equation tl -> determineVariables tl = 1 ->
  Forall fitsInt (exponents tl) ->
  recognizeEquation tl b =
  ([InOneVariable;
    OfDegree (if maxExponent b (exponents tl) =? 0 then 1
              else maxExponent b (exponents tl))], 0).
Proof.
  intros He Hd F. rewrite recognizeEquation_unfold. cbv zeta.
  apply (exhausted_iff_Equation tl b) in He. destruct He as [Ha Hn].
  pose proof (traced_exhausted _ _ (mkState tl b) traced_acceptEquation Hn)
    as Hm. simpl in Hm. rewrite (accumulate_max _ _ F) in Hm.
  rewrite Ha, Hn, Hd, Hm. reflexivity.
Qed.

(** X11.  A session in which every line is an equation of the grammar in
    one variable whose exponents all convert to [int] reports for each
    line its own degree, the largest integral part of the exponents
    written in that line, or 1 when that is 0, and ends with the
    accumulator at 0: each such line is reported as it would be alone. *)
Theorem one_variable_session (lines : list (list Token)) :
  Forall (fun tl => Equation tl /\ determineVariables tl = 1 /\
                    Forall fitsInt (exponents tl)) lines ->
  recognizeEquations lines 0 =
  (map (fun tl =>
          [InOneVariable;
           OfDegree (if maxExponent 0 (exponents tl) =? 0 then 1
                     else maxExponent 0 (exponents tl))]) lines,
   0) /\
  fst (recognizeEquations lines 0)
  = map (fun tl => fst (recognizeEquation tl 0)) lines.
Proof.
  induction 1 as [|tl lines [He [Hd F]] Hall [IH1 IH2]].
  - split; reflexivity.
  - rewrite recognizeEquations_cons. cbn [fst snd map].
    assert (S0 : snd (recognizeEquation tl 0) = 0)
      by (rewrite (one_variable_line tl 0 He Hd F); reflexivity).
    rewrite S0. split.
    + rewrite IH1. cbn [fst snd].
      rewrite (one_variable_line tl 0 He Hd F). reflexivity.
    + f_equal. exact IH2.
Qed.

Lemma eq_cubic_in_grammar : Equation eq_cubic.
Proof.
  apply (Equation_intro [var "x"; sym "^"; num 3; sym "+"; var "x"] [num 5]).
  - apply (Expression_plain [var "x"; sym "^"; num 3] [sym "+"; var "x"]);
      [constructor|].
    apply (Terms_cons "+" [var "x"] []);
      [left; reflexivity | constructor | constructor].
  - apply (Expression_plain [num 5] []); constructor.
Defined.

Lemma one_variable_session_witness :
  fst (recognizeEquations [eq_cubic; eq_linear] 0)
  = map (fun tl => fst (recognizeEquation tl 0)) [eq_cubic; eq_linear].
Proof.
  apply (one_variable_session [eq_cubic; eq_linear]).
  repeat constructor;
    first [exact eq_cubic_in_grammar | exact eq_linear_in_grammar
          | discriminate].
Defined.

(** ** Variables counted over parts of a list *)

Lemma identifiers_app (l l' : list Token) :
  identifiers (l ++ l') = identifiers l ++ identifiers l'.
Proof.
  induction l as [|[q|s|c] l IH]; simpl; auto. rewrite IH. reflexivity.
Qed.

(** X12.  [determineVariables] over a list continued with more tokens: the
    answer never goes down; it stays the same when the added tokens hold
    no Identifier; it stays 2 once it is 2; and when the first part holds
    no Identifier it is the answer for the added part. *)
Theorem determineVariables_app (l l' : list Token) :
  determineVariables l <= determineVariables (l ++ l') /\
  (identifiers l' = [] ->
   determineVariables (l ++ l') = determineVariables l) /\
  (determineVariables l = 2 -> determineVariables (l ++ l') = 2) /\
  (identifiers l = [] ->
   determineVariables (l ++ l') = determineVariables l').
Proof.
  rewrite !determineVariables_closed, identifiers_app.
  destruct (identifiers l) as [|x rest]; simpl.
  - repeat split; try discriminate; try reflexivity.
    + destruct (identifiers l') as [|y r]; [lia|].
      destruct (forallb (String.eqb y) r); lia.
    + intros ->. reflexivity.
  - rewrite forallb_app.
    destruct (forallb (String.eqb x) rest); simpl.
    + repeat split; try discriminate.
      * destruct (forallb (String.eqb x) (identifiers l')); lia.
      * intros ->. reflexivity.
    + repeat split; try discriminate; try reflexivity; try lia.
Qed.

Lemma determineVariables_app_witness :
  determineVariables (eq_two_vars ++ eq_linear) = 2 /\
  determineVariables (eq_no_vars ++ eq_linear) = determineVariables eq_linear.
Proof.
  split.
  - apply (proj1 (proj2 (proj2 (determineVariables_app eq_two_vars eq_linear)))).
    reflexivity.
  - apply (proj2 (proj2 (proj2 (determineVariables_app eq_no_vars eq_linear)))).
    reflexivity.
Defined.

(** ** Malformed exponents *)

Lemma caretsFollowed_Term (t rest : list Token) :
  Term t -> caretsFollowed (t ++ rest) = caretsFollowed rest.
Proof. intros H. destruct H; reflexivity. Qed.

Lemma caretsFollowed_Terms (ts rest : list Token) :
  Terms ts -> caretsFollowed (ts ++ rest) = caretsFollowed rest.
Proof.
  induction 1 as [|c t ts Hc Ht Hts IH]; [reflexivity|].
  simpl. rewrite <- app_assoc, (caretsFollowed_Term _ _ Ht), IH.
  destruct Hc as [-> | ->]; reflexivity.
Qed.

Lemma caretsFollowed_Expression (l rest : list Token) :
  Expression l -> caretsFollowed (l ++ rest) = caretsFollowed rest.
Proof.
  intros H. destruct H as [t ts Ht Hts | t ts Ht Hts]; simpl;
    rewrite <- app_assoc, (caretsFollowed_Term _ _ Ht);
    apply caretsFollowed_Terms; exact Hts.
Qed.

Lemma caretsFollowed_Equation (l : list Token) :
  Equation l -> caretsFollowed l = true.
Proof.
  intros H. destruct H as [l1 l2 H1 H2].
  rewrite (caretsFollowed_Expression _ _ H1). simpl.
  rewrite <- (app_nil_r l2), (caretsFollowed_Expression _ _ H2). reflexivity.
Qed.

Lemma caretsFollowed_inv (l1 l2 : list Token) :
  caretsFollowed (l1 ++ Symbol "^" :: l2) = true ->
  startsWith isNumber l2 = true.
Proof.
  induction l1 as [|t l1 IH]; simpl; intros H;
    apply andb_true_iff in H; destruct H as [H1 H2]; auto.
Qed.

(** X13.  A ['^'] that is not directly followed by a Number token, wherever
    it stands in the line (a negative exponent [^-2], [^x], [^] at the
    end), makes the driver report "this is not an equation". *)
Theorem malformed_exponent_rejected (l1 l2 : list Token) (b : Z) :
  startsWith isNumber l2 = false ->
  fst (recognizeEquation (l1 ++ Symbol "^" :: l2) b) = [NotAnEquation].
Proof.
  intros H. rewrite recognizeEquation_unfold. cbv zeta.
  destruct (fst (acceptEquation (mkState (l1 ++ Symbol "^" :: l2) b)))
    eqn:E1; [|reflexivity].
  destruct (lp (snd (acceptEquation (mkState (l1 ++ Symbol "^" :: l2) b))))
    eqn:E2; [|reflexivity].
  exfalso.
  assert (He : Equation (l1 ++ Symbol "^" :: l2)).
  { apply (exhausted_iff_Equation _ b). split; assumption. }
  apply caretsFollowed_Equation, caretsFollowed_inv in He. congruence.
Qed.

Lemma malformed_exponent_rejected_witness :
  fst (recognizeEquation
         ([num 2; var "x"] ++ Symbol "^" :: [sym "-"; num 2; sym "="; num 0]) 0)
  = [NotAnEquation].
Proof.
  apply (malformed_exponent_rejected
           [num 2; var "x"] [sym "-"; num 2; sym "="; num 0] 0).
  reflexivity.
Defined.

(** ** Integer exponents *)

(** X14.  An exponent token whose payload is an integer of the [int]
    range, which is what a scanner of natural numbers produces, goes
    through [double] and back unchanged: [valueNumber] leaves in the
    accumulator the larger of its old value and that integer. *)
Theorem valueNumber_integer (wp : Q) (z b : Z) (next : list Token) :
  INT_MIN <= z <= INT_MAX ->
  valueNumber wp (mkState (Number (inject_Z z) :: next) b)
  = (true, inject_Z z, mkState next (Z.max b z)).
Proof.
  intros R.
  assert (T : truncate (inject_Z z) = z)
    by (unfold truncate; simpl; apply Z.quot_1_r).
  assert (F : fitsInt (inject_Z z)) by (unfold fitsInt; rewrite T; exact R).
  unfold valueNumber. simpl. rewrite (update_max _ b F), T. reflexivity.
Qed.

Lemma valueNumber_integer_witness :
  valueNumber 0 (mkState (Number (inject_Z 4) :: [sym "="]) 2)
  = (true, inject_Z 4, mkState [sym "="] (Z.max 2 4)).
Proof.
  apply (valueNumber_integer 0 4 2 [sym "="]). split; discriminate.
Defined.

(** ** The first version *)

Lemma keeps_ret {A} (a : A) : keepsAccumulator (ret a).
Proof. intros st. split; [reflexivity | simpl; lia]. Qed.

Lemma keeps_bind {A B} (a : M A) (f : A -> M B) :
  keepsAccumulator a -> (forall x, keepsAccumulator (f x)) ->
  keepsAccumulator (bind a f).
Proof.
  intros Ha Hf st. unfold bind. destruct (Ha st) as [B1 L1].
  destruct (a st) as [x st1]. simpl in *.
  destruct (Hf x st1) as [B2 L2]. split; [congruence | lia].
Qed.

Lemma keeps_acceptNumber : keepsAccumulator acceptNumber.
Proof.
  intros [l b]. unfold acceptNumber.
  destruct l as [|[q|s|c] next]; simpl; split; auto; lia.
Qed.

Lemma keeps_acceptIdentifier : keepsAccumulator acceptIdentifier.
Proof.
  intros [l b]. unfold acceptIdentifier.
  destruct l as [|[q|s|c] next]; simpl; split; auto; lia.
Qed.

Lemma keeps_acceptCharacter (c : ascii) : keepsAccumulator (acceptCharacter c).
Proof.
  intros [l b]. unfold acceptCharacter.
  destruct l as [|[q|s|c'] next]; simpl; try (split; auto; lia).
  destruct (Ascii.eqb c' c); simpl; split; auto; lia.
Qed.

Lemma keeps_plus_or_minus :
  keepsAccumulator (orElse (acceptCharacter "+") (acceptCharacter "-")).
Proof.
  unfold orElse. apply keeps_bind; [apply keeps_acceptCharacter|].
  intros [|]; [apply keeps_ret | apply keeps_acceptCharacter].
Qed.

Lemma keeps_old_acceptExponent : keepsAccumulator RecognizeExp.acceptExponent.
Proof.
  unfold RecognizeExp.acceptExponent.
  apply keeps_bind; [apply keeps_acceptCharacter|].
  intros [|]; [apply keeps_acceptNumber | apply keeps_ret].
Qed.

Lemma keeps_old_acceptTerm : keepsAccumulator RecognizeExp.acceptTerm.
Proof.
  unfold RecognizeExp.acceptTerm.
  apply keeps_bind; [apply keeps_acceptNumber|].
  intros [|]; (apply keeps_bind; [apply keeps_acceptIdentifier|]);
    intros [|]; first [apply keeps_old_acceptExponent | apply keeps_ret].
Qed.

Lemma keeps_old_loop (fuel : nat) :
  keepsAccumulator (RecognizeExp.acceptExpression_loop fuel).
Proof.
  induction fuel as [|fuel IH]; cbn [RecognizeExp.acceptExpression_loop];
    [apply keeps_ret|].
  apply keeps_bind; [apply keeps_plus_or_minus|].
  intros [|]; [|apply keeps_ret].
  apply keeps_bind; [apply keeps_old_acceptTerm|].
  intros [|]; simpl; [exact IH | apply keeps_ret].
Qed.

Lemma keeps_old_while : keepsAccumulator RecognizeExp.acceptExpression_while.
Proof.
  intros st. unfold RecognizeExp.acceptExpression_while.
  pose proof (keeps_old_loop (S (List.length (lp st))) st) as H.
  destruct (RecognizeExp.acceptExpression_loop (S (List.length (lp st))) st)
    as [r st']. exact H.
Qed.

Lemma keeps_old_acceptExpression : keepsAccumulator RecognizeExp.acceptExpression.
Proof.
  unfold RecognizeExp.acceptExpression.
  apply keeps_bind; [apply keeps_old_acceptTerm|].
  intros [|]; simpl; [apply keeps_old_while | apply keeps_ret].
Qed.

Lemma keeps_old_acceptEquation : keepsAccumulator RecognizeExp.acceptEquation.
Proof.
  unfold RecognizeExp.acceptEquation.
  apply keeps_bind; [apply keeps_old_acceptExpression|].
  intros [|]; simpl; [|apply keeps_ret].
  apply keeps_bind; [apply keeps_acceptCharacter|].
  intros [|]; [|apply keeps_ret].
  apply keeps_bind; [apply keeps_old_acceptExpression|].
  intros [|]; apply keeps_ret.
Qed.

(** The loop of the first version ends within its fuel. *)
Lemma old_loop_total (fuel : nat) (st : State) :
  (List.length (lp st) < fuel)%nat ->
  exists b, fst (RecognizeExp.acceptExpression_loop fuel st) = Some b.
Proof.
  revert st. induction fuel as [|fuel IH]; intros st H; [lia|].
  cbn [RecognizeExp.acceptExpression_loop]. unfold bind at 1.
  destruct (orElse (acceptCharacter "+") (acceptCharacter "-") st)
    as [[|] st1] eqn:E1; [|exists true; reflexivity].
  apply plus_or_minus_consumes in E1.
  unfold bind.
  destruct (keeps_old_acceptTerm st1) as [_ L].
  destruct (RecognizeExp.acceptTerm st1) as [[|] st2]; simpl in *.
  - apply IH. lia.
  - exists false. reflexivity.
Qed.

Lemma old_acceptExponent_true (st st' : State) :
  RecognizeExp.acceptExponent st = (true, st') ->
  exists e, lp st = Symbol "^" :: Number e :: lp st'.
Proof.
  unfold RecognizeExp.acceptExponent, bind.
  destruct (acceptCharacter "^" st) as [[|] st1] eqn:E1; [|discriminate].
  apply acceptCharacter_true in E1. destruct E1 as [L1 _].
  intros E2. apply acceptNumber_true in E2. destruct E2 as [e [L2 _]].
  exists e. rewrite L1, L2. reflexivity.
Qed.

Lemma old_acceptTerm_true (st st' : State) :
  RecognizeExp.acceptTerm st = (true, st') ->
  exists t, RecognizeExp.Term t /\ lp st = t ++ lp st'.
Proof.
  unfold RecognizeExp.acceptTerm, bind.
  destruct (acceptNumber st) as [[|] st1] eqn:E1.
  - apply acceptNumber_true in E1. destruct E1 as [q [L1 _]].
    destruct (acceptIdentifier st1) as [[|] st2] eqn:E2.
    + apply acceptIdentifier_true in E2. destruct E2 as [s [L2 _]].
      intros E3. apply old_acceptExponent_true in E3. destruct E3 as [e L3].
      exists [Number q; Identifier s; Symbol "^"; Number e].
      split; [constructor|]. rewrite L1, L2, L3. reflexivity.
    + apply rejected_unchanged in E2; [|apply clean_acceptIdentifier].
      subst st2. intros [= <-]. exists [Number q]. split; [constructor|].
      exact L1.
  - apply rejected_unchanged in E1; [|apply clean_acceptNumber]. subst st1.
    destruct (acceptIdentifier st) as [[|] st2] eqn:E2; [|discriminate].
    apply acceptIdentifier_true in E2. destruct E2 as [s [L2 _]].
    intros E3. apply old_acceptExponent_true in E3. destruct E3 as [e L3].
    exists [Identifier s; Symbol "^"; Number e]. split; [constructor|].
    rewrite L2, L3. reflexivity.
Qed.

Lemma old_Term_is_Term (t : list Token) : RecognizeExp.Term t -> Term t.
Proof. intros H. destruct H; constructor. Qed.

Lemma old_loop_true (fuel : nat) (st st' : State) :
  RecognizeExp.acceptExpression_loop fuel st = (Some true, st') ->
  exists ts, Terms ts /\ lp st = ts ++ lp st'.
Proof.
  revert st. induction fuel as [|fuel IH]; intros st; [discriminate|].
  cbn [RecognizeExp.acceptExpression_loop]. unfold bind at 1.
  destruct (orElse (acceptCharacter "+") (acceptCharacter "-") st)
    as [[|] st1] eqn:E1.
  - apply plus_or_minus_true in E1. destruct E1 as [c [Hc L1]].
    unfold bind.
    destruct (RecognizeExp.acceptTerm st1) as [[|] st2] eqn:E2; simpl;
      [|discriminate].
    apply old_acceptTerm_true in E2. destruct E2 as [t [Ht L2]].
    apply old_Term_is_Term in Ht.
    intros E3. apply IH in E3. destruct E3 as [ts [Hts L3]].
    exists (Symbol c :: t ++ ts). split; [constructor; assumption|].
    rewrite L1, L2, L3. simpl. rewrite app_assoc. reflexivity.
  - apply rejected_unchanged in E1; [|apply clean_plus_or_minus]. subst st1.
    intros [= <-]. exists []. split; [constructor | reflexivity].
Qed.

Lemma PlainExpression_Expression (l : list Token) :
  PlainExpression l -> Expression l.
Proof. intros H. destruct H. constructor; assumption. Qed.

Lemma old_acceptExpression_true (st st' : State) :
  RecognizeExp.acceptExpression st = (true, st') ->
  exists l, PlainExpression l /\ lp st = l ++ lp st'.
Proof.
  unfold RecognizeExp.acceptExpression, bind.
  destruct (RecognizeExp.acceptTerm st) as [[|] st1] eqn:E1; simpl;
    [|discriminate].
  apply old_acceptTerm_true in E1. destruct E1 as [t [Ht L1]].
  apply old_Term_is_Term in Ht.
  unfold RecognizeExp.acceptExpression_while.
  destruct (RecognizeExp.acceptExpression_loop (S (List.length (lp st1))) st1)
    as [[[|]|] st2] eqn:E2; try discriminate.
  intros [= <-]. apply old_loop_true in E2. destruct E2 as [ts [Hts L2]].
  exists (t ++ ts). split; [constructor; assumption|].
  rewrite L1, L2, app_assoc. reflexivity.
Qed.

Lemma old_acceptEquation_true (st st' : State) :
  RecognizeExp.acceptEquation st = (true, st') ->
  exists l, lp st = l ++ lp st' /\
            ((exists l1 l2,
                 PlainExpression l1 /\ PlainExpression l2 /\
                 l = l1 ++ Symbol "=" :: l2) \/
             (PlainExpression l /\
              startsWith (isSymbol "=") (lp st') = false)).
Proof.
  unfold RecognizeExp.acceptEquation, bind.
  destruct (RecognizeExp.acceptExpression st) as [[|] st1] eqn:E1; simpl;
    [|discriminate].
  apply old_acceptExpression_true in E1. destruct E1 as [l1 [H1 L1]].
  destruct (acceptCharacter "=" st1) as [[|] st2] eqn:E2.
  - apply acceptCharacter_true in E2. destruct E2 as [L2 _].
    destruct (RecognizeExp.acceptExpression st2) as [[|] st3] eqn:E3; simpl;
      [|discriminate].
    apply old_acceptExpression_true in E3. destruct E3 as [l2 [H2 L3]].
    intros [= <-]. exists (l1 ++ Symbol "=" :: l2).
    split; [|left; exists l1, l2; auto].
    rewrite L1, L2, L3, <- app_assoc. reflexivity.
  - pose proof (rejected_unchanged _ _ _ (clean_acceptCharacter "=") E2).
    subst st2. intros [= <-]. exists l1. split; [exact L1|]. right.
    split; [exact H1|].
    revert E2. unfold acceptCharacter.
    destruct (lp st1) as [|[q|s|c] next]; simpl; try reflexivity.
    destruct (Ascii.eqb c "="); [discriminate | reflexivity].
Qed.

Lemma Term_no_equals (t : list Token) :
  Term t -> existsb (isSymbol "=") t = false.
Proof. intros H. destruct H; reflexivity. Qed.

Lemma Terms_no_equals (ts : list Token) :
  Terms ts -> existsb (isSymbol "=") ts = false.
Proof.
  induction 1 as [|c t ts Hc Ht Hts IH]; [reflexivity|].
  simpl. rewrite existsb_app, (Term_no_equals _ Ht), IH.
  destruct Hc as [-> | ->]; reflexivity.
Qed.

Lemma Expression_no_equals (l : list Token) :
  Expression l -> existsb (isSymbol "=") l = false.
Proof.
  intros H. destruct H as [t ts Ht Hts | t ts Ht Hts]; simpl;
    rewrite existsb_app, (Term_no_equals _ Ht), (Terms_no_equals _ Hts);
    reflexivity.
Qed.

Lemma old_recognizeExpression_unfold (tl : list Token) (b : Z) :
  RecognizeExp.recognizeExpression tl b =
  let st := snd (RecognizeExp.acceptEquation (mkState tl b)) in
  if fst (RecognizeExp.acceptEquation (mkState tl b)) && isNull (lp st) then
    ([RecognizeExp.InOneVariable; RecognizeExp.OfDegrees b], b)
  else ([RecognizeExp.NotAnEquation], b).
Proof.
  unfold RecognizeExp.recognizeExpression.
  destruct (keeps_old_acceptEquation (mkState tl b)) as [K _].
  destruct (RecognizeExp.acceptEquation (mkState tl b)) as [r st].
  simpl in *. rewrite K. reflexivity.
Qed.

(** X15.  The first version never writes the accumulator: none of its
    matchers changes [biggestExponent], so its driver prints as the degree
    of every line it accepts the value the accumulator had before, whatever
    exponents the line holds, and a whole session started at 0 ends at 0
    and only ever prints 0 degrees. *)
Theorem first_version_degree_is_stale :
  (forall st,
      biggestExponent (snd (RecognizeExp.acceptExponent st))
      = biggestExponent st /\
      biggestExponent (snd (RecognizeExp.acceptTerm st)) = biggestExponent st /\
      biggestExponent (snd (RecognizeExp.acceptExpression st))
      = biggestExponent st /\
      biggestExponent (snd (RecognizeExp.acceptEquation st))
      = biggestExponent st) /\
  (forall tl b,
      snd (RecognizeExp.recognizeExpression tl b) = b /\
      (fst (RecognizeExp.recognizeExpression tl b)
       = [RecognizeExp.NotAnEquation] \/
       fst (RecognizeExp.recognizeExpression tl b)
       = [RecognizeExp.InOneVariable; RecognizeExp.OfDegrees b])) /\
  (forall lines b,
      snd (RecognizeExp.recognizeExpressions lines b) = b /\
      Forall (fun msgs =>
                msgs = [RecognizeExp.NotAnEquation] \/
                msgs = [RecognizeExp.InOneVariable; RecognizeExp.OfDegrees b])
             (fst (RecognizeExp.recognizeExpressions lines b))) /\
  RecognizeExp.recognizeExpressions
    [[var "x"; sym "^"; num 3; sym "="; num 5]; [num 1; sym "+"; num 2]] 0
  = ([[RecognizeExp.InOneVariable; RecognizeExp.OfDegrees 0];
      [RecognizeExp.InOneVariable; RecognizeExp.OfDegrees 0]], 0).
Proof.
  assert (A : forall tl b,
             snd (RecognizeExp.recognizeExpression tl b) = b /\
             (fst (RecognizeExp.recognizeExpression tl b)
              = [RecognizeExp.NotAnEquation] \/
              fst (RecognizeExp.recognizeExpression tl b)
              = [RecognizeExp.InOneVariable; RecognizeExp.OfDegrees b])).
  { intros tl b. rewrite old_recognizeExpression_unfold. cbv zeta.
    destruct (fst (RecognizeExp.acceptEquation (mkState tl b))
              && isNull (lp (snd (RecognizeExp.acceptEquation (mkState tl b)))));
      simpl; auto. }
  split; [|split; [exact A|split; [|reflexivity]]].
  - intros st. repeat split;
      first [apply keeps_old_acceptExponent | apply keeps_old_acceptTerm
            | apply keeps_old_acceptExpression | apply keeps_old_acceptEquation].
  - induction lines as [|tl lines IH]; intros b.
    + simpl. split; [reflexivity | constructor].
    + simpl. destruct (A tl b) as [A1 A2].
      destruct (RecognizeExp.recognizeExpression tl b) as [msgs0 b1].
      simpl in A1, A2. subst b1.
      destruct (IH b) as [I1 I2].
      destruct (RecognizeExp.recognizeExpressions lines b) as [out b2].
      simpl in *. split; [exact I1|]. constructor; assumption.
Qed.

Lemma Equation_reported (tl : list Token) (b : Z) :
  Equation tl -> reportsEquation (fst (recognizeEquation tl b)) = true.
Proof.
  intros H. apply (exhausted_iff_Equation tl b) in H. destruct H as [Ha Hn].
  rewrite recognizeEquation_unfold. cbv zeta. rewrite Ha, Hn. simpl.
  destruct (determineVariables tl =? 1); reflexivity.
Qed.

Lemma not_Equation_reported (tl : list Token) (b : Z) :
  ~ Equation tl -> fst (recognizeEquation tl b) = [NotAnEquation].
Proof.
  intros N. rewrite recognizeEquation_unfold. cbv zeta.
  destruct (fst (acceptEquation (mkState tl b))) eqn:E1; [|reflexivity].
  destruct (lp (snd (acceptEquation (mkState tl b)))) eqn:E2; [|reflexivity].
  elim N. apply (exhausted_iff_Equation tl b). split; assumption.
Qed.

Lemma Equation_has_equals (l : list Token) :
  Equation l -> existsb (isSymbol "=") l = true.
Proof.
  intros H. destruct H as [l1 l2 _ _]. rewrite existsb_app. simpl.
  apply orb_true_r.
Qed.

Lemma old_reported (tl : list Token) (b : Z) :
  fst (RecognizeExp.recognizeExpression tl b) <> [RecognizeExp.NotAnEquation] ->
  PlainExpression tl \/
  exists l1 l2,
    PlainExpression l1 /\ PlainExpression l2 /\ tl = l1 ++ Symbol "=" :: l2.
Proof.
  rewrite old_recognizeExpression_unfold. cbv zeta.
  destruct (RecognizeExp.acceptEquation (mkState tl b)) as [r st'] eqn:E.
  simpl. destruct r; simpl; [|intros N; elim N; reflexivity].
  destruct (lp st') as [|t rest] eqn:Hn; simpl;
    [|intros N; elim N; reflexivity].
  intros _. apply old_acceptEquation_true in E.
  destruct E as [l [L H]]. simpl in L. rewrite Hn, app_nil_r in L. subst l.
  destruct H as [H | [H _]]; auto.
Qed.

Lemma plain_sides_Equation (l1 l2 : list Token) :
  PlainExpression l1 -> PlainExpression l2 ->
  Equation (l1 ++ Symbol "=" :: l2).
Proof.
  intros H1 H2. constructor; apply PlainExpression_Expression; assumption.
Qed.

(** X16.  Terms of the first version.  What its [acceptTerm] accepts is a
    Number, or an identifier (with or without a Number before it) carrying
    an exponent, and every such term is accepted when no Identifier
    follows.  An identifier whose next token is not ['^'] is rejected by
    the first version, with the identifier consumed, where the current
    [acceptTerm] accepts it. *)
Theorem first_version_terms :
  (forall st,
      fst (RecognizeExp.acceptTerm st) = true ->
      exists t, RecognizeExp.Term t /\
                lp st = t ++ lp (snd (RecognizeExp.acceptTerm st))) /\
  (forall t rest b,
      RecognizeExp.Term t -> startsWith isIdentifier rest = false ->
      RecognizeExp.acceptTerm (mkState (t ++ rest) b) = (true, mkState rest b)) /\
  (forall s rest b,
      startsWith isCaret rest = false ->
      RecognizeExp.acceptTerm (mkState (Identifier s :: rest) b)
      = (false, mkState rest b) /\
      acceptTerm (mkState (Identifier s :: rest) b) = (true, mkState rest b)) /\
  (forall q s rest b,
      startsWith isCaret rest = false ->
      RecognizeExp.acceptTerm (mkState (Number q :: Identifier s :: rest) b)
      = (false, mkState rest b) /\
      acceptTerm (mkState (Number q :: Identifier s :: rest) b)
      = (true, mkState rest b)).
Proof.
  split; [|split; [|split]].
  - intros st. destruct (RecognizeExp.acceptTerm st) as [r st'] eqn:E.
    simpl. intros ->. exact (old_acceptTerm_true _ _ E).
  - intros t rest b Ht Hi. destruct Ht;
      unfold RecognizeExp.acceptTerm, bind, acceptNumber, acceptIdentifier,
        RecognizeExp.acceptExponent, bind, acceptCharacter, acceptNumber;
      simpl; try reflexivity.
    destruct rest as [|[q'|s'|c'] rest']; simpl in *;
      try discriminate; reflexivity.
  - intros s rest b Hc.
    unfold RecognizeExp.acceptTerm, acceptTerm, bind, acceptNumber,
      acceptIdentifier, RecognizeExp.acceptExponent, acceptExponent, bind,
      acceptCharacter.
    simpl. destruct rest as [|[q'|s'|c'] rest']; simpl in *;
      try (split; reflexivity).
    rewrite Hc. split; reflexivity.
  - intros q s rest b Hc.
    unfold RecognizeExp.acceptTerm, acceptTerm, bind, acceptNumber,
      acceptIdentifier, RecognizeExp.acceptExponent, acceptExponent, bind,
      acceptCharacter.
    simpl. destruct rest as [|[q'|s'|c'] rest']; simpl in *;
      try (split; reflexivity).
    rewrite Hc. split; reflexivity.
Qed.

Lemma first_version_terms_witness :
  RecognizeExp.acceptTerm (mkState (Identifier "x" :: [sym "="; num 1]) 0)
  = (false, mkState [sym "="; num 1] 0) /\
  acceptTerm (mkState (Identifier "x" :: [sym "="; num 1]) 0)
  = (true, mkState [sym "="; num 1] 0).
Proof.
  apply (proj1 (proj2 (proj2 first_version_terms)) "x"%string
           [sym "="; num 1] 0).
  reflexivity.
Defined.

(** X17.  Equations of the first version.  Its [acceptEquation] accepts an
    expression that no ['='] follows as it stands.  A line it reports as an
    equation is, in the grammar of the current version, an expression
    without leading ['-'], or two such expressions around an ['='], which
    is an equation; when the line holds an ['='] the current driver
    reports it as an equation too.  A line that holds no ['='] is never an
    equation for the current driver, so the expressions the first version
    reported are now "not an equation". *)
Theorem first_version_equations :
  (forall st st1,
      RecognizeExp.acceptExpression st = (true, st1) ->
      startsWith (isSymbol "=") (lp st1) = false ->
      RecognizeExp.acceptEquation st = (true, st1)) /\
  (forall tl b,
      fst (RecognizeExp.recognizeExpression tl b)
      <> [RecognizeExp.NotAnEquation] ->
      PlainExpression tl \/
      exists l1 l2,
        PlainExpression l1 /\ PlainExpression l2 /\
        tl = l1 ++ Symbol "=" :: l2) /\
  (forall l1 l2,
      PlainExpression l1 -> PlainExpression l2 ->
      Equation (l1 ++ Symbol "=" :: l2)) /\
  (forall tl b b',
      fst (RecognizeExp.recognizeExpression tl b)
      <> [RecognizeExp.NotAnEquation] ->
      existsb (isSymbol "=") tl = true ->
      reportsEquation (fst (recognizeEquation tl b')) = true) /\
  (forall tl b',
      existsb (isSymbol "=") tl = false ->
      fst (recognizeEquation tl b') = [NotAnEquation]).
Proof.
  split; [|split; [exact old_reported
                  | split; [exact plain_sides_Equation | split]]].
  - intros st st1 E H. unfold RecognizeExp.acceptEquation, bind.
    rewrite E. simpl.
    replace (acceptCharacter "=" st1) with (false, st1); [reflexivity|].
    unfold acceptCharacter.
    destruct (lp st1) as [|[q|s|c] next]; simpl in *; try reflexivity.
    rewrite H. reflexivity.
  - intros tl b b' H He. apply old_reported in H.
    destruct H as [H | [l1 [l2 [H1 [H2 ->]]]]].
    + apply PlainExpression_Expression, Expression_no_equals in H.
      congruence.
    + apply Equation_reported, plain_sides_Equation; assumption.
  - intros tl b' He. apply not_Equation_reported.
    intros H. apply Equation_has_equals in H. congruence.
Qed.

Lemma first_version_equations_witness :
  reportsEquation
    (fst (recognizeEquation [var "x"; sym "^"; num 3; sym "="; num 5] 0)) = true
  /\ fst (recognizeEquation [var "x"; sym "^"; num 3; sym "+"; num 5] 0)
     = [NotAnEquation].
Proof.
  split.
  - apply (proj1 (proj2 (proj2 (proj2 first_version_equations)))
             [var "x"; sym "^"; num 3; sym "="; num 5] 0 0);
      [discriminate | reflexivity].
  - apply (proj2 (proj2 (proj2 (proj2 first_version_equations)))
             [var "x"; sym "^"; num 3; sym "+"; num 5] 0).
    reflexivity.
Defined.
